(** * Campaign discount engine: preview and redeem

    A shallow embedding of [campaigns/models.py] and [campaigns/services.py].

    Modelling conventions.
    - A [Decimal] is the rational number it denotes ([Q]); numerical
      equality of decimals is [==].  The amounts of the campaign and of the
      ledger are database fields of at most 12 digits, so their sums,
      differences and comparisons are exact.  The amounts of the cart are
      not bounded (a query string can carry any number of digits), so the
      product and the quotient that [_compute_raw_discount] takes of them
      are rounded as the default decimal context rounds: to 28 significant
      digits, half to even ([context_round]).
    - A [date] is a day number ([Z], as [date.toordinal()]) and adding
      [timedelta(days=n)] is integer addition.  [date.today()] is the
      parameter [today] of every operation.
    - Python integers are [Z].
    - The two ledger tables are finite maps keyed as their unique
      constraints say; [get_or_create] inserts the default row when the
      key is missing.
    - The dict returned by the services is an association list in insertion
      order. *)

From Stdlib Require Import ZArith QArith Qround Qminmax Qpower Lia Lqa String List.
From stdpp Require Import gmap strings.
Import ListNotations.

Local Open Scope string_scope.
Local Open Scope Z_scope.

(** ** Data model ([models.py]) *)

Abbreviation Decimal := Q (only parsing).
Abbreviation date := Z (only parsing).

Inductive AppliesTo := CART | DELIVERY.
Inductive DiscountType := PERCENT | FLAT.

Record Campaign := {
  campaign_id : Z;
  applies_to : AppliesTo;
  discount_type : DiscountType;
  discount_value : Decimal;
  max_discount_amount : option Decimal;
  allow_all_customers : bool;
  specific_customers : list Z;
  start_date : date;
  end_date : date;
  run_days_limit : option Z;
  total_budget_limit : option Decimal;
  max_txn_per_customer_per_day : Z;
  is_active : bool
}.

(** Python truthiness of a number: zero is falsy.  An optional field is
    falsy when it is [None] or holds zero, which is how [if c.field:] and
    [if not c.field:] read it. *)
Definition truthy_int (n : Z) : bool := negb (n =? 0).

Definition truthy_dec (d : Decimal) : bool := negb (Qeq_bool d 0).

(** [Campaign.days_exhausted] *)
Definition days_exhausted (c : Campaign) (today : date) : bool :=
  match run_days_limit c with
  | Some l =>
      if negb (truthy_int l) then false
      else start_date c + (l - 1) <? today
  | None => false
  end.

(** [Campaign.is_within_date_window] *)
Definition is_within_date_window (c : Campaign) (today : date) : bool :=
  (start_date c <=? today) && (today <=? end_date c).

(** [Campaign.remaining_budget]: [None] if unlimited, the whole limit while
    the campaign has no budget row ([hasattr(self, "budget")]); it only
    reads.  [budget_row] is the related [CampaignBudget], if any. *)
Definition remaining_budget (c : Campaign) (budget_row : option Decimal)
    : option Decimal :=
  match total_budget_limit c with
  | None => None
  | Some lim =>
      match budget_row with
      | None => Some lim
      | Some given => Some (lim - given)%Q
      end
  end.

(** [Campaign.days_left] *)
Definition days_left (c : Campaign) (today : date) : Z :=
  if end_date c <? today then 0
  else
    let natural_left := (end_date c - today) + 1 in
    match run_days_limit c with
    | Some l =>
        if truthy_int l then
          let started_span := (today - start_date c) + 1 in
          let used := Z.max 0 started_span in
          let left_by_run := Z.max 0 (l - used) in
          Z.min natural_left left_by_run
        else Z.max 0 natural_left
    | None => Z.max 0 natural_left
    end.

(** ** The ledger: [CampaignBudget] and [CampaignUsageDaily] rows *)

Record Ledger := {
  budgets : gmap Z Decimal;            (* campaign -> total_discount_given *)
  usages : gmap (Z * Z * Z) Z          (* (campaign, customer, date) -> txn_count *)
}.

Definition empty_ledger : Ledger := {| budgets := ∅; usages := ∅ |}.

(** The counters as a reader sees them: the default of a row not yet created
    is 0. *)
Definition total_discount_given (s : Ledger) (cid : Z) : Decimal :=
  default 0%Q (budgets s !! cid).

Definition txn_count (s : Ledger) (k : Z * Z * Z) : Z :=
  default 0 (usages s !! k).

(** A small state monad over the ledger. *)
Definition M (A : Type) : Type := Ledger -> A * Ledger.

Definition ret {A} (a : A) : M A := fun s => (a, s).

Definition bind {A B} (m : M A) (f : A -> M B) : M B :=
  fun s => let (a, s') := m s in f a s'.

Notation "'do' x <- m ; k" := (bind m (fun x => k))
  (at level 10, x name, m at level 100, k at level 200,
   format "'[v' 'do'  x  <-  m ; '/' k ']'").

(** [CampaignBudget.objects.get_or_create(campaign=c)] *)
Definition get_or_create_budget (cid : Z) : M Decimal :=
  fun s =>
    match budgets s !! cid with
    | Some g => (g, s)
    | None => (0%Q, {| budgets := <[cid := 0%Q]> (budgets s); usages := usages s |})
    end.

(** [CampaignUsageDaily.objects.get_or_create(campaign=, customer=, usage_date=)] *)
Definition get_or_create_usage (k : Z * Z * Z) : M Z :=
  fun s =>
    match usages s !! k with
    | Some n => (n, s)
    | None => (0, {| budgets := budgets s; usages := <[k := 0]> (usages s) |})
    end.

(** [daily.save()] and [budget.save()] *)
Definition save_usage (k : Z * Z * Z) (n : Z) : M unit :=
  fun s => (tt, {| budgets := budgets s; usages := <[k := n]> (usages s) |}).

Definition save_budget (cid : Z) (g : Decimal) : M unit :=
  fun s => (tt, {| budgets := <[cid := g]> (budgets s); usages := usages s |}).

(** ** Services ([services.py]) *)

Record Cart := {
  customer : Z;
  subtotal : Decimal;
  delivery : Decimal
}.

(** [_eligible_customer] *)
Definition _eligible_customer (c : Campaign) (user : Z) : bool :=
  if negb (allow_all_customers c) then
    existsb (Z.eqb user) (specific_customers c)
  else true.

(** [_budget_remaining] *)
Definition _budget_remaining (c : Campaign) : M (option Decimal) :=
  match total_budget_limit c with
  | Some lim =>
      if negb (truthy_dec lim) then ret None
      else
        do given <- get_or_create_budget (campaign_id c);
        ret (Some (lim - given)%Q)
  | None => ret None
  end.

Definition usage_key (c : Campaign) (user : Z) (today : date) : Z * Z * Z :=
  (campaign_id c, user, today).

(** [_per_day_txn_left] *)
Definition _per_day_txn_left (c : Campaign) (user : Z) (today : date) : M Z :=
  do n <- get_or_create_usage (usage_key c user today);
  ret (Z.max 0 (max_txn_per_customer_per_day c - n)).

(** ** The decimal context

    The result of an arithmetic operation on decimals is rounded to the
    precision of the context, 28 significant digits, with
    [ROUND_HALF_EVEN]. *)

(** The nearest integer, the even one of two equally near. *)
Definition round_half_even (x : Q) : Z :=
  let f := Qfloor x in
  let r := (x - inject_Z f)%Q in
  if Qle_bool r (1 # 2) then
    if Qle_bool (1 # 2) r then (if Z.even f then f else f + 1) else f
  else f + 1.

(** The exponent [e] of the last kept digit of a positive [x]:
    [10 ^ (e + 27) <= x < 10 ^ (e + 28)], searched upwards from a lower
    bound. *)
Fixpoint exponent_from (fuel : nat) (e : Z) (x : Q) : Z :=
  match fuel with
  | O => e
  | S fuel' =>
      if Qle_bool (10 ^ (e + 28))%Q x then exponent_from fuel' (e + 1) x else e
  end.

Definition sig_exponent (x : Q) : Z :=
  exponent_from
    (Z.to_nat (Z.log2 (Qnum x) + Z.log2 (Zpos (Qden x)) + 3))
    (- Z.log2 (Zpos (Qden x)) - 28) x.

Definition context_round_pos (x : Q) : Q :=
  let e := sig_exponent x in
  (inject_Z (round_half_even (x / 10 ^ e)) * 10 ^ e)%Q.

Definition context_round (x : Q) : Q :=
  if Qeq_bool x 0 then 0%Q
  else if Qle_bool 0 x then context_round_pos x
  else (- context_round_pos (- x))%Q.

(** [x] can be written with at most 28 digits. *)
Definition fits_context (x : Q) : Prop :=
  exists m j : Z, (x == inject_Z m * 10 ^ j)%Q /\ Z.abs m < 10 ^ 28.

(** [Decimal.quantize(Decimal("0.01"), rounding=ROUND_DOWN)]: keep two
    fractional digits, dropping the rest (towards zero). *)
Definition Qtruncate (x : Q) : Z :=
  if Qle_bool 0 x then Qfloor x else Qceiling x.

Definition quantize_down (x : Decimal) : Decimal :=
  inject_Z (Qtruncate (x * 100)) / 100.

(** [_compute_raw_discount] *)
Definition _compute_raw_discount (c : Campaign) (amount : Decimal) : Decimal :=
  let amount := Qmax 0 amount in
  let disc :=
    match discount_type c with
    | PERCENT =>
        context_round (context_round (amount * discount_value c) / 100)
    | FLAT => discount_value c
    end%Q in
  let disc :=
    match max_discount_amount c with
    | Some m => if truthy_dec m then Qmin disc m else disc
    | None => disc
    end in
  Qmax 0 (quantize_down disc).

(** The dicts the services return. *)
Inductive Value :=
  | VBool (b : bool)
  | VStr (s : string)
  | VDec (d : Decimal)
  | VApplies (a : AppliesTo).

Definition Dict : Type := list (string * Value).

Fixpoint dict_get (k : string) (d : Dict) : option Value :=
  match d with
  | [] => None
  | (k', v) :: d' => if String.eqb k k' then Some v else dict_get k d'
  end.

Definition keys (d : Dict) : list string := map fst d.

(** Truthiness of [prev.get("applicable")]: a missing key gives [None]. *)
Definition get_applicable (d : Dict) : bool :=
  match dict_get "applicable" d with
  | Some (VBool b) => b
  | _ => false
  end.

(** [result["discount_amount"]], 0 when the key is missing. *)
Definition get_discount (d : Dict) : Decimal :=
  match dict_get "discount_amount" d with
  | Some (VDec x) => x
  | _ => 0%Q
  end.

Definition get_reason (d : Dict) : option string :=
  match dict_get "reason" d with
  | Some (VStr r) => Some r
  | _ => None
  end.

(** Truthiness of [reason]: [None] and the empty string are falsy. *)
Definition truthy_str (o : option string) : bool :=
  match o with
  | Some r => negb (String.eqb r "")
  | None => false
  end.

(** [reason or "Not applicable."] *)
Definition reason_or (reason : option string) (dflt : string) : string :=
  match reason with
  | Some r => if truthy_str reason then r else dflt
  | None => dflt
  end.

Definition Qlt_bool (x y : Q) : bool := negb (Qle_bool y x).

(** The two [return] statements of [preview_discount]. *)
Definition preview_applicable (c : Campaign) (disc : Decimal) : Dict :=
  [ ("applicable", VBool true);
    ("applies_to", VApplies (applies_to c));
    ("discount_amount", VDec disc) ].

Definition preview_rejected (c : Campaign) (reason : option string) : Dict :=
  [ ("applicable", VBool false);
    ("reason", VStr (reason_or reason "Not applicable."));
    ("discount_amount", VDec 0%Q);
    ("applies_to", VApplies (applies_to c)) ].

(** [preview_discount] *)
Definition preview_discount (c : Campaign) (cart : Cart) (today : date) : M Dict :=
  if negb (is_active c && is_within_date_window c today
           && negb (days_exhausted c today)) then
    ret (preview_rejected c (Some "Inactive or outside schedule."))
  else if negb (_eligible_customer c (customer cart)) then
    ret (preview_rejected c (Some "Customer not targeted."))
  else
    do left <- _per_day_txn_left c (customer cart) today;
    if left <=? 0 then
      ret (preview_rejected c (Some "Daily usage limit reached."))
    else
      let base :=
        match applies_to c with
        | CART => subtotal cart
        | DELIVERY => delivery cart
        end in
      if Qle_bool base 0 then
        ret (preview_rejected c (Some "Nothing to discount."))
      else
        let disc := _compute_raw_discount c base in
        do remaining <- _budget_remaining c;
        let '(reason, disc) :=
          match remaining with
          | Some r =>
              if Qle_bool r 0 then (Some "Budget exhausted.", disc)
              else (None, Qmin disc r)
          | None => (None, disc)
          end in
        if negb (truthy_str reason) && Qlt_bool 0 disc then
          ret (preview_applicable c disc)
        else
          ret (preview_rejected c reason).

(** The part of [redeem_discount] that runs once the preview has passed:
    the usage row is locked and re-checked, then both counters are written. *)
Definition race_rejected : Dict :=
  [ ("applicable", VBool false);
    ("reason", VStr "Race: daily limit reached.") ].

Definition redeem_committed (c : Campaign) (disc : Decimal) : Dict :=
  [ ("applicable", VBool true);
    ("discount_amount", VDec disc);
    ("applies_to", VApplies (applies_to c)) ].

Definition redeem_locked (c : Campaign) (cart : Cart) (today : date)
    (disc : Decimal) : M Dict :=
  do daily <- get_or_create_usage (usage_key c (customer cart) today);
  if max_txn_per_customer_per_day c <=? daily then
    ret race_rejected
  else
    do _u <- save_usage (usage_key c (customer cart) today) (daily + 1);
    do _b <-
      match total_budget_limit c with
      | Some lim =>
          if truthy_dec lim then
            do budget <- get_or_create_budget (campaign_id c);
            save_budget (campaign_id c) (budget + disc)%Q
          else ret tt
      | None => ret tt
      end;
    ret (redeem_committed c disc).

(** [redeem_discount].  The result is [None] when the body raises (the
    only place that can is [prev["discount_amount"]]); [transaction.atomic]
    then rolls the ledger back. *)
Definition redeem_discount (c : Campaign) (cart : Cart) (today : date)
    : Ledger -> option Dict * Ledger :=
  fun s =>
    let (prev, s1) := preview_discount c cart today s in
    if negb (get_applicable prev) then (Some prev, s1)
    else
      match dict_get "discount_amount" prev with
      | Some (VDec disc) =>
          let (r, s2) := redeem_locked c cart today disc s1 in (Some r, s2)
      | _ => (None, s)
      end.

(** The same call when other transactions commit between its unlocked
    preview and the moment it holds the usage row: [other] is their net
    effect on the ledger. *)
Definition redeem_discount_racing (other : Ledger -> Ledger)
    (c : Campaign) (cart : Cart) (today : date)
    : Ledger -> option Dict * Ledger :=
  fun s =>
    let (prev, s1) := preview_discount c cart today s in
    if negb (get_applicable prev) then (Some prev, s1)
    else
      match dict_get "discount_amount" prev with
      | Some (VDec disc) =>
          let (r, s2) := redeem_locked c cart today disc (other s1) in
          (Some r, s2)
      | _ => (None, s)
      end.

(** ** Sequences of calls *)

Inductive Call :=
  | PreviewCall (c : Campaign) (cart : Cart) (today : date)
  | RedeemCall (c : Campaign) (cart : Cart) (today : date).

Definition call_campaign (op : Call) : Campaign :=
  match op with
  | PreviewCall c _ _ => c
  | RedeemCall c _ _ => c
  end.

(** The ledger a call leaves behind. *)
Definition run_call (s : Ledger) (op : Call) : Ledger :=
  match op with
  | PreviewCall c cart today => snd (preview_discount c cart today s)
  | RedeemCall c cart today => snd (redeem_discount c cart today s)
  end.

Definition run_calls (ops : list Call) (s : Ledger) : Ledger :=
  fold_left run_call ops s.

(** Every call of the sequence that names campaign [c] by its id sees the
    definition [c]: the campaign is not edited while the calls run. *)
Definition same_definition (c : Campaign) (ops : list Call) : Prop :=
  Forall (fun op => campaign_id (call_campaign op) = campaign_id c ->
                    call_campaign op = c) ops.

(** ** What a call may do to the ledger *)

(** [s'] has the rows of [s] with their counters, and possibly more rows
    whose counters are still zero. *)
Definition adds_zero_rows (s s' : Ledger) : Prop :=
  (forall k, usages s' !! k = usages s !! k \/
             (usages s !! k = None /\ usages s' !! k = Some 0)) /\
  (forall cid, budgets s' !! cid = budgets s !! cid \/
               (budgets s !! cid = None /\ budgets s' !! cid = Some 0%Q)).

(** No counter differs between [s] and [s']: every row of [s] is in [s']
    with the same value, and every counter reads the same. *)
Definition counters_unchanged (s s' : Ledger) : Prop :=
  (forall k n, usages s !! k = Some n -> usages s' !! k = Some n) /\
  (forall cid g, budgets s !! cid = Some g -> budgets s' !! cid = Some g) /\
  (forall k, txn_count s' k = txn_count s k) /\
  (forall cid, total_discount_given s' cid = total_discount_given s cid).

Definition has_key (k : string) (d : Dict) : bool :=
  match dict_get k d with
  | Some _ => true
  | None => false
  end.

(** ** The checks of [preview_discount] in closed form

    The six conditions that [preview_discount] tests, in its order, each
    with the reason it gives, written over the counters of the ledger
    instead of the rows.  They are read off the code (its helpers, its
    truthiness tests); the order as the specification words it comes
    further down. *)

Definition selected_base (c : Campaign) (cart : Cart) : Decimal :=
  match applies_to c with
  | CART => subtotal cart
  | DELIVERY => delivery cart
  end.

Definition remaining_today (c : Campaign) (cart : Cart) (today : date)
    (s : Ledger) : Z :=
  Z.max 0 (max_txn_per_customer_per_day c
           - txn_count s (usage_key c (customer cart) today)).

(** The campaign has a budget cap in force: [if c.total_budget_limit:]. *)
Definition budget_capped (c : Campaign) : bool :=
  match total_budget_limit c with
  | Some lim => truthy_dec lim
  | None => false
  end.

Definition budget_left (c : Campaign) (s : Ledger) : option Decimal :=
  match total_budget_limit c with
  | Some lim =>
      if budget_capped c
      then Some (lim - total_discount_given s (campaign_id c))%Q
      else None
  | None => None
  end.

Definition final_discount (c : Campaign) (cart : Cart) (s : Ledger) : Decimal :=
  let raw := _compute_raw_discount c (selected_base c cart) in
  match budget_left c s with
  | Some r => Qmin raw r
  | None => raw
  end.

Definition check_schedule (c : Campaign) (today : date) : bool :=
  is_active c && is_within_date_window c today && negb (days_exhausted c today).

Definition check_daily (c : Campaign) (cart : Cart) (today : date)
    (s : Ledger) : bool :=
  0 <? remaining_today c cart today s.

Definition check_base (c : Campaign) (cart : Cart) : bool :=
  Qlt_bool 0 (selected_base c cart).

Definition check_budget (c : Campaign) (s : Ledger) : bool :=
  match budget_left c s with
  | Some r => Qlt_bool 0 r
  | None => true
  end.

Definition check_discount (c : Campaign) (cart : Cart) (s : Ledger) : bool :=
  Qlt_bool 0 (final_discount c cart s).

Definition ordered_checks (c : Campaign) (cart : Cart) (today : date)
    (s : Ledger) : list (bool * string) :=
  [ (check_schedule c today, "Inactive or outside schedule.");
    (_eligible_customer c (customer cart), "Customer not targeted.");
    (check_daily c cart today s, "Daily usage limit reached.");
    (check_base c cart, "Nothing to discount.");
    (check_budget c s, "Budget exhausted.");
    (check_discount c cart s, "Not applicable.") ].

Fixpoint first_failing (checks : list (bool * string)) : option string :=
  match checks with
  | [] => None
  | (passed, reason) :: rest =>
      if passed then first_failing rest else Some reason
  end.

Definition preview_as_specified (c : Campaign) (cart : Cart) (today : date)
    (s : Ledger) : Dict :=
  match first_failing (ordered_checks c cart today s) with
  | Some reason => preview_rejected c (Some reason)
  | None => preview_applicable c (final_discount c cart s)
  end.

(** ** The ledger a call leaves behind, in closed form *)

(** After a preview: the usage row is looked up (and created) only once the
    schedule and targeting checks have passed, the budget row only once the
    daily and base checks have passed too. *)
Definition ledger_after_preview (c : Campaign) (cart : Cart) (today : date)
    (s : Ledger) : Ledger :=
  if check_schedule c today && _eligible_customer c (customer cart) then
    let s1 := snd (get_or_create_usage (usage_key c (customer cart) today) s) in
    if check_daily c cart today s && check_base c cart && budget_capped c
    then snd (get_or_create_budget (campaign_id c) s1)
    else s1
  else s.

(** After a commit under the lock on ledger [s]: one more transaction in
    the usage row and, for a capped campaign, [disc] more in the budget row. *)
Definition ledger_after_commit (c : Campaign) (cart : Cart) (today : date)
    (disc : Decimal) (s : Ledger) : Ledger :=
  let key := usage_key c (customer cart) today in
  {| budgets :=
       if budget_capped c
       then <[campaign_id c :=
                (total_discount_given s (campaign_id c) + disc)%Q]> (budgets s)
       else budgets s;
     usages := <[key := txn_count s key + 1]> (usages s) |}.

(** ** The schedule rules as the specification words them

    These two definitions follow the specification text, not the code; the
    theorems below compare them with [days_exhausted] and [days_left]. *)

(** "exhausted once today > start_date + (run_days_limit - 1) days" for a
    limit that is set, never exhausted for one that is not. *)
Definition days_exhausted_as_specified (c : Campaign) (today : date) : bool :=
  match run_days_limit c with
  | Some l => start_date c + (l - 1) <? today
  | None => false
  end.

Definition days_used_so_far (c : Campaign) (today : date) : Z :=
  Z.max 0 ((today - start_date c) + 1).

(** "min(end_date - today + 1, run_days_limit - days_used_so_far) when
    run_days_limit set, else end_date - today + 1, floored at 0, and 0 once
    today > end_date". *)
Definition days_left_as_specified (c : Campaign) (today : date) : Z :=
  if end_date c <? today then 0
  else
    Z.max 0
      match run_days_limit c with
      | Some l => Z.min (end_date c - today + 1) (l - days_used_so_far c today)
      | None => end_date c - today + 1
      end.

(** ** The PERCENT rounding law as the specification words it

    "B x V / 100 truncated toward zero to 2 decimal places, then capped at
    max_discount_amount when set and clamped to >= 0". *)
Definition percent_discount_as_specified (c : Campaign) (B : Decimal) : Decimal :=
  let truncated := quantize_down (B * discount_value c / 100) in
  let capped :=
    match max_discount_amount c with
    | Some m => Qmin truncated m
    | None => truncated
    end in
  Qmax 0 capped.

(** A decimal with (at most) two fractional digits, as every
    [DecimalField(decimal_places=2)] of the models holds. *)
Definition two_places (d : Decimal) : Prop :=
  exists k : Z, d == inject_Z k / 100.

(** A campaign whose per-redemption cap is set to 0.00. *)
Definition zero_cap : Campaign := {|
  campaign_id := 3;
  applies_to := CART;
  discount_type := PERCENT;
  discount_value := 10%Q;
  max_discount_amount := Some 0%Q;
  allow_all_customers := true;
  specific_customers := [];
  start_date := 99;
  end_date := 105;
  run_days_limit := None;
  total_budget_limit := None;
  max_txn_per_customer_per_day := 999;
  is_active := true
|}.

(** A flat 30.00 off the delivery charge, uncapped. *)
Definition flat30 : Campaign := {|
  campaign_id := 4;
  applies_to := DELIVERY;
  discount_type := FLAT;
  discount_value := 30%Q;
  max_discount_amount := None;
  allow_all_customers := false;
  specific_customers := [7];
  start_date := 99;
  end_date := 105;
  run_days_limit := None;
  total_budget_limit := None;
  max_txn_per_customer_per_day := 999;
  is_active := true
|}.

Definition cart_small_delivery : Cart :=
  {| customer := 7; subtotal := 500%Q; delivery := (5 # 2)%Q |}.

(** Another redemption by the same customer that commits while a call is
    between its preview and its lock. *)
Definition concurrent_redeem (c : Campaign) (cart : Cart) (today : date)
    (s : Ledger) : Ledger :=
  snd (redeem_discount c cart today s).

(** Scenario C of the test-suite: the campaign of scenario A with a budget
    of 40.00 and a daily maximum of 999. *)
Definition budget40 : Campaign := {|
  campaign_id := 5;
  applies_to := CART;
  discount_type := PERCENT;
  discount_value := 10%Q;
  max_discount_amount := Some 200%Q;
  allow_all_customers := true;
  specific_customers := [];
  start_date := 99;
  end_date := 105;
  run_days_limit := Some 5;
  total_budget_limit := Some 40%Q;
  max_txn_per_customer_per_day := 999;
  is_active := true
|}.

Definition other_cart500 : Cart :=
  {| customer := 8; subtotal := 500%Q; delivery := 50%Q |}.

(** An amount of 31 fractional digits, 0.0999...9, as a query string can
    carry it. *)
Definition long_base : Decimal := (10 ^ 30 - 1) # (10 ^ 31).

(** A campaign whose run-days limit is set to zero. *)
Definition zero_run_days : Campaign := {|
  campaign_id := 2;
  applies_to := CART;
  discount_type := PERCENT;
  discount_value := 10%Q;
  max_discount_amount := None;
  allow_all_customers := true;
  specific_customers := [];
  start_date := 10;
  end_date := 20;
  run_days_limit := Some 0;
  total_budget_limit := None;
  max_txn_per_customer_per_day := 999;
  is_active := true
|}.

(** Scenario A of the test-suite: PERCENT 10 percent, cap 200.00, budget
    1000.00, five run days, one redemption per customer and day. *)
Definition test10 : Campaign := {|
  campaign_id := 1;
  applies_to := CART;
  discount_type := PERCENT;
  discount_value := 10%Q;
  max_discount_amount := Some 200%Q;
  allow_all_customers := true;
  specific_customers := [];
  start_date := 99;
  end_date := 105;
  run_days_limit := Some 5;
  total_budget_limit := Some 1000%Q;
  max_txn_per_customer_per_day := 1;
  is_active := true
|}.

Definition cart500 : Cart :=
  {| customer := 7; subtotal := 500%Q; delivery := 50%Q |}.

Definition empty_cart : Cart :=
  {| customer := 7; subtotal := 0%Q; delivery := 0%Q |}.

(** [test_date_window_blocked]: the campaign starts in two days. *)
Definition test10_future : Campaign := {|
  campaign_id := 1;
  applies_to := CART;
  discount_type := PERCENT;
  discount_value := 10%Q;
  max_discount_amount := Some 200%Q;
  allow_all_customers := true;
  specific_customers := [];
  start_date := 102;
  end_date := 105;
  run_days_limit := Some 5;
  total_budget_limit := Some 1000%Q;
  max_txn_per_customer_per_day := 1;
  is_active := true
|}.

(** [test_targeted_customer_only]: only customer 7 is targeted. *)
Definition test10_targeted : Campaign := {|
  campaign_id := 1;
  applies_to := CART;
  discount_type := PERCENT;
  discount_value := 10%Q;
  max_discount_amount := Some 200%Q;
  allow_all_customers := false;
  specific_customers := [7];
  start_date := 99;
  end_date := 105;
  run_days_limit := Some 5;
  total_budget_limit := Some 1000%Q;
  max_txn_per_customer_per_day := 1;
  is_active := true
|}.

(** ** The check constraints of [Campaign.Meta] *)

(** [campaign_end_after_start] *)
Definition campaign_end_after_start (start_d end_d : date) : Prop :=
  start_d <= end_d.

(** [campaign_discount_value_valid] *)
Definition campaign_discount_value_valid (t : DiscountType) (v : Decimal)
    : Prop :=
  match t with
  | PERCENT => (0 <= v /\ v <= 100)%Q
  | FLAT => (0 <= v)%Q
  end.

(** ** [CampaignSerializer.validate] ([serializers.py])

    [attrs] holds the submitted fields only (a partial update leaves the
    others out); [instance] is the stored campaign of an update and [None]
    on a create.  The result is the error message of the
    [ValidationError], or [attrs]. *)

Record Attrs := {
  a_start_date : option date;
  a_end_date : option date;
  a_discount_type : option DiscountType;
  a_discount_value : option Decimal;
  a_allow_all_customers : option bool;
  a_specific_customers : option (list Z)
}.

(** [attrs.get(f) or getattr(self.instance, f, None)] for a field whose
    values are all truthy (dates, choices). *)
Definition attr_or_stored {A} (submitted : option A) (instance : option Campaign)
    (field : Campaign -> A) : option A :=
  match submitted with
  | Some x => Some x
  | None => option_map field instance
  end.

(** The same for [discount_value], where a submitted zero is falsy. *)
Definition discount_value_or_stored (submitted : option Decimal)
    (instance : option Campaign) : option Decimal :=
  match submitted with
  | Some v =>
      if truthy_dec v then Some v else option_map discount_value instance
  | None => option_map discount_value instance
  end.

Definition validate (instance : option Campaign) (attrs : Attrs)
    : string + Attrs :=
  let start := attr_or_stored (a_start_date attrs) instance start_date in
  let end_ := attr_or_stored (a_end_date attrs) instance end_date in
  let dates_bad :=
    match start, end_ with
    | Some st, Some en => en <? st
    | _, _ => false
    end in
  if dates_bad then inl "end_date must be on/after start_date."
  else
    let dtype := attr_or_stored (a_discount_type attrs) instance discount_type in
    let dvalue := discount_value_or_stored (a_discount_value attrs) instance in
    let percent_bad :=
      match dtype, dvalue with
      | Some PERCENT, Some v => Qlt_bool v 0 || Qlt_bool 100 v
      | _, _ => false
      end in
    if percent_bad then
      inl "For PERCENT type, discount_value must be between 0 and 100."
    else
      let flat_bad :=
        match dtype, dvalue with
        | Some FLAT, Some v => Qlt_bool v 0
        | _, _ => false
        end in
      if flat_bad then inl "For FLAT type, discount_value must be >= 0."
      else
        let targets_bad :=
          match a_allow_all_customers attrs, a_specific_customers attrs with
          | Some false, Some specific => (Z.of_nat (length specific) =? 0)
          | _, _ => false
          end in
        if targets_bad then
          inl "When allow_all_customers is False, you must specify at least one user in specific_customers."
        else inr attrs.

(** ** The two functional endpoints ([views.py])

    [str] of a [Decimal] and the name of a campaign are not part of the
    model of the data; the endpoints take them as parameters. *)

Record AvailableEntry := {
  entry_campaign_id : Z;
  entry_campaign_name : string;
  entry_applies_to : AppliesTo;
  entry_discount_amount : string;
  entry_discount_type : DiscountType;
  entry_discount_value : string
}.

Section Views.

Variable decimal_str : Decimal -> string.
Variable campaign_name : Campaign -> string.

(** The loop of [CampaignViewSet.available] over the active campaigns.
    [None] is a [KeyError] on [prev["applies_to"]] or
    [prev["discount_amount"]]. *)
Fixpoint available_loop (cs : list Campaign) (cart : Cart) (today : date)
    (applicable : list AvailableEntry) (s : Ledger)
    : option (list AvailableEntry) * Ledger :=
  match cs with
  | [] => (Some applicable, s)
  | c :: cs' =>
      let (prev, s1) := preview_discount c cart today s in
      if get_applicable prev then
        match dict_get "applies_to" prev, dict_get "discount_amount" prev with
        | Some (VApplies a), Some (VDec d) =>
            available_loop cs' cart today
              (applicable ++
               [ {| entry_campaign_id := campaign_id c;
                    entry_campaign_name := campaign_name c;
                    entry_applies_to := a;
                    entry_discount_amount := decimal_str d;
                    entry_discount_type := discount_type c;
                    entry_discount_value := decimal_str (discount_value c) |} ])
              s1
        | _, _ => (None, s1)
        end
      else available_loop cs' cart today applicable s1
  end.

(** [CampaignViewSet.available], once the cart is collected; [campaigns] is
    the queryset in its order. *)
Definition available (campaigns : list Campaign) (cart : Cart) (today : date)
    : Ledger -> option (list AvailableEntry) * Ledger :=
  available_loop (filter (fun c => is_active c) campaigns) cart today [].

(** [str(v)] for the values a result holds. *)
Definition value_str (v : Value) : string :=
  match v with
  | VBool true => "True"
  | VBool false => "False"
  | VStr s => s
  | VDec d => decimal_str d
  | VApplies CART => "CART"
  | VApplies DELIVERY => "DELIVERY"
  end.

(** [result[k] = v] on a dict: an existing key keeps its place. *)
Fixpoint dict_set (k : string) (v : Value) (d : Dict) : Dict :=
  match d with
  | [] => [(k, v)]
  | (k', v') :: d' =>
      if String.eqb k k' then (k', v) :: d' else (k', v') :: dict_set k v d'
  end.

(** The tail of [CampaignViewSet.redeem]: the amount is turned into a
    string when the result has one, and the status code follows the
    [applicable] flag. *)
Definition redeem_response (result : Dict) : Z * Dict :=
  let body :=
    match dict_get "discount_amount" result with
    | Some v => dict_set "discount_amount" (VStr (value_str v)) result
    | None => result
    end in
  (if get_applicable body then 200 else 400, body).

(** [CampaignViewSet.redeem], once campaign and cart are fetched; [None]
    when [redeem_discount] raises. *)
Definition redeem_view (c : Campaign) (cart : Cart) (today : date)
    : Ledger -> option (Z * Dict) * Ledger :=
  fun s =>
    let (res, s') := redeem_discount c cart today s in
    (option_map redeem_response res, s').

End Views.

(** ** Accounting over a sequence of calls *)

(** The result of a call is a committed redemption. *)
Definition committed (op : Call) (s : Ledger) : bool :=
  match op with
  | PreviewCall _ _ _ => false
  | RedeemCall c cart today =>
      match fst (redeem_discount c cart today s) with
      | Some r => get_applicable r
      | None => false
      end
  end.

Definition call_key (op : Call) : Z * Z * Z :=
  match op with
  | PreviewCall c cart today => usage_key c (customer cart) today
  | RedeemCall c cart today => usage_key c (customer cart) today
  end.

(** The amount a call returns as granted. *)
Definition granted (op : Call) (s : Ledger) : Decimal :=
  match op with
  | PreviewCall _ _ _ => 0%Q
  | RedeemCall c cart today =>
      match fst (redeem_discount c cart today s) with
      | Some r => if get_applicable r then get_discount r else 0%Q
      | None => 0%Q
      end
  end.

(** How many calls of the sequence are committed redemptions on the usage
    row [k]. *)
Fixpoint committed_count (k : Z * Z * Z) (ops : list Call) (s : Ledger) : Z :=
  match ops with
  | [] => 0
  | op :: ops' =>
      (if committed op s && bool_decide (call_key op = k) then 1 else 0)
      + committed_count k ops' (run_call s op)
  end.

(** The sum of the amounts the committed redemptions of campaign [cid]
    returned. *)
Fixpoint granted_total (cid : Z) (ops : list Call) (s : Ledger) : Decimal :=
  match ops with
  | [] => 0%Q
  | op :: ops' =>
      ((if bool_decide (campaign_id (call_campaign op) = cid)
        then granted op s else 0)
       + granted_total cid ops' (run_call s op))%Q
  end.

(** Every budget row of the ledger holds a two-place amount. *)
Definition ledger_two_places (s : Ledger) : Prop :=
  forall cid g, budgets s !! cid = Some g -> two_places g.

(** A campaign whose budget limit is set to 0.00. *)
Definition zero_budget : Campaign := {|
  campaign_id := 6;
  applies_to := CART;
  discount_type := PERCENT;
  discount_value := 10%Q;
  max_discount_amount := None;
  allow_all_customers := true;
  specific_customers := [];
  start_date := 99;
  end_date := 105;
  run_days_limit := None;
  total_budget_limit := Some 0%Q;
  max_txn_per_customer_per_day := 3;
  is_active := true
|}.

(** A stored flat 150.00 campaign, and an update that turns it into a
    PERCENT campaign of 0 percent. *)
Definition flat150 : Campaign := {|
  campaign_id := 7;
  applies_to := CART;
  discount_type := FLAT;
  discount_value := 150%Q;
  max_discount_amount := None;
  allow_all_customers := true;
  specific_customers := [];
  start_date := 99;
  end_date := 105;
  run_days_limit := None;
  total_budget_limit := None;
  max_txn_per_customer_per_day := 3;
  is_active := true
|}.

Definition to_zero_percent : Attrs := {|
  a_start_date := None;
  a_end_date := None;
  a_discount_type := Some PERCENT;
  a_discount_value := Some 0%Q;
  a_allow_all_customers := None;
  a_specific_customers := None
|}.

Definition create_percent20 : Attrs := {|
  a_start_date := Some 99;
  a_end_date := Some 105;
  a_discount_type := Some PERCENT;
  a_discount_value := Some 20%Q;
  a_allow_all_customers := Some true;
  a_specific_customers := None
|}.

Definition move_start : Attrs := {|
  a_start_date := Some 100;
  a_end_date := None;
  a_discount_type := None;
  a_discount_value := None;
  a_allow_all_customers := None;
  a_specific_customers := None
|}.

(** ** The evaluation order as the specification words it

    The six checks in the words of the specification, in its order: (1)
    active, today within [start_date .. end_date], not day-exhausted; (2)
    all customers allowed or the customer on the allow-list; (3) today's
    remaining redemption count > 0; (4) the selected base amount > 0; (5)
    remaining budget > 0, with the discount capped at it; (6) resulting
    discount > 0.  What the specification leaves to the reading of "set" is
    a parameter: [limit_in_force] says when a run-days limit counts,
    [cap_in_force] when a budget limit does. *)

Section StatedOrder.

Variable limit_in_force : Z -> bool.
Variable cap_in_force : Decimal -> bool.

Definition day_exhausted_by_rule (c : Campaign) (today : date) : bool :=
  match run_days_limit c with
  | Some l => limit_in_force l && (start_date c + (l - 1) <? today)
  | None => false
  end.

Definition within_schedule (c : Campaign) (today : date) : bool :=
  is_active c
  && (start_date c <=? today) && (today <=? end_date c)
  && negb (day_exhausted_by_rule c today).

Definition customer_targeted (c : Campaign) (user : Z) : bool :=
  allow_all_customers c || bool_decide (user ∈ specific_customers c).

Definition redemptions_left_today (c : Campaign) (cart : Cart) (today : date)
    (s : Ledger) : Z :=
  Z.max 0 (max_txn_per_customer_per_day c
           - txn_count s (campaign_id c, customer cart, today)).

Definition budget_still_open (c : Campaign) (s : Ledger) : option Decimal :=
  match total_budget_limit c with
  | Some lim =>
      if cap_in_force lim
      then Some (lim - total_discount_given s (campaign_id c))%Q
      else None
  | None => None
  end.

Definition discount_within_budget (c : Campaign) (cart : Cart) (s : Ledger)
    : Decimal :=
  let raw := _compute_raw_discount c (selected_base c cart) in
  match budget_still_open c s with
  | Some remaining => Qmin raw remaining
  | None => raw
  end.

Definition stated_checks (c : Campaign) (cart : Cart) (today : date)
    (s : Ledger) : list (bool * string) :=
  [ (within_schedule c today, "Inactive or outside schedule.");
    (customer_targeted c (customer cart), "Customer not targeted.");
    (0 <? redemptions_left_today c cart today s, "Daily usage limit reached.");
    (Qlt_bool 0 (selected_base c cart), "Nothing to discount.");
    (match budget_still_open c s with
     | Some remaining => Qlt_bool 0 remaining
     | None => true
     end, "Budget exhausted.");
    (Qlt_bool 0 (discount_within_budget c cart s), "Not applicable.") ].

Definition preview_by_stated_order (c : Campaign) (cart : Cart) (today : date)
    (s : Ledger) : Dict :=
  match first_failing (stated_checks c cart today s) with
  | Some reason => preview_rejected c (Some reason)
  | None => preview_applicable c (discount_within_budget c cart s)
  end.

End StatedOrder.

(** A limit counts whenever it is set: the order read literally. *)
Definition any_limit (l : Z) : bool := true.
Definition any_cap (lim : Decimal) : bool := true.

(** The same create payload with another discount value. *)
Definition with_discount_value (attrs : Attrs) (v : Decimal) : Attrs := {|
  a_start_date := a_start_date attrs;
  a_end_date := a_end_date attrs;
  a_discount_type := a_discount_type attrs;
  a_discount_value := Some v;
  a_allow_all_customers := a_allow_all_customers attrs;
  a_specific_customers := a_specific_customers attrs
|}.

(** A create payload that leaves the discount type to the model default. *)
Definition create_untyped : Attrs := {|
  a_start_date := Some 99;
  a_end_date := Some 105;
  a_discount_type := None;
  a_discount_value := Some 20%Q;
  a_allow_all_customers := Some true;
  a_specific_customers := None
|}.

(** * The scenarios of the test-suite *)

Example test_percent_discount_correct :
  let p := fst (preview_discount test10 cart500 100 empty_ledger) in
  get_applicable p = true /\
  dict_get "applies_to" p = Some (VApplies CART) /\
  (get_discount p == 50)%Q.
Proof. vm_compute. repeat split. Qed.

Example test_budget_and_usage_update_on_redeem :
  let run := redeem_discount test10 cart500 100 empty_ledger in
  (exists r, fst run = Some r /\ get_applicable r = true /\
             (get_discount r == 50)%Q) /\
  (total_discount_given (snd run) 1 == 50)%Q /\
  txn_count (snd run) (1, 7, 100) = 1.
Proof.
  vm_compute. split; [eexists; split; [reflexivity|]|]; repeat split.
Qed.

Example test_daily_limit_blocks_second_redeem :
  let s1 := snd (redeem_discount test10 cart500 100 empty_ledger) in
  exists r, fst (redeem_discount test10 cart500 100 s1) = Some r /\
            get_applicable r = false /\
            get_reason r = Some "Daily usage limit reached.".
Proof. vm_compute. eexists. repeat split. Qed.

Example test_date_window_blocked :
  let p := fst (preview_discount test10_future cart500 100 empty_ledger) in
  get_applicable p = false /\
  get_reason p = Some "Inactive or outside schedule.".
Proof. vm_compute. repeat split. Qed.

Example test_targeted_customer_only :
  let p1 := fst (preview_discount test10_targeted cart500 100 empty_ledger) in
  let p2 :=
    fst (preview_discount test10_targeted other_cart500 100 empty_ledger) in
  get_applicable p1 = true /\
  get_applicable p2 = false /\
  get_reason p2 = Some "Customer not targeted.".
Proof. vm_compute. repeat split. Qed.

(** * Schedule: run-days limit and remaining days *)

Section Schedule.

Variable c : Campaign.
Variable today : date.

Lemma days_exhausted_unlimited :
  run_days_limit c = None \/ run_days_limit c = Some 0 ->
  days_exhausted c today = false.
Proof.
  unfold days_exhausted. intros [-> | ->]; reflexivity.
Qed.

Lemma days_exhausted_limited (l : Z) :
  run_days_limit c = Some l -> l <> 0 ->
  days_exhausted c today = (start_date c + (l - 1) <? today).
Proof.
  unfold days_exhausted, truthy_int. intros -> Hl.
  destruct (Z.eqb_spec l 0); [contradiction | reflexivity].
Qed.

End Schedule.

(** C7, as stated, fails for a limit set to zero: the stated rule makes the
    campaign exhausted from its first day on, the code never does. *)
Lemma days_exhausted_zero_limit_counterexample :
  run_days_limit zero_run_days = Some 0 /\
  days_exhausted_as_specified zero_run_days 10 = true /\
  days_exhausted zero_run_days 10 = false /\
  ~ (days_exhausted zero_run_days 10 = true
     <-> start_date zero_run_days + (0 - 1) < 10).
Proof.
  repeat split. intros [_ H]. specialize (H ltac:(reflexivity)). discriminate.
Qed.

(** C7 (amended): a campaign is day-exhausted exactly when its
    [run_days_limit] is set to a non-zero [L] and
    [today > start_date + (L - 1)]; so with such a limit the days from
    [start_date] on which it is not exhausted are precisely the [L] days
    [start_date .. start_date + L - 1], whatever [end_date] is, and with the
    limit unset or zero it is never exhausted. *)
Theorem days_exhausted_rule (c : Campaign) (today : date) :
  (days_exhausted c today = true <->
     exists l, run_days_limit c = Some l /\ l <> 0 /\
               start_date c + (l - 1) < today) /\
  (forall l, run_days_limit c = Some l -> l <> 0 ->
     (start_date c <= today /\ days_exhausted c today = false
      <-> start_date c <= today < start_date c + l)).
Proof.
  split.
  - split.
    + destruct (run_days_limit c) as [l|] eqn:E.
      * destruct (Z.eq_dec l 0) as [-> | Hl].
        -- rewrite days_exhausted_unlimited by auto. discriminate.
        -- rewrite (days_exhausted_limited c today l E Hl).
           intros H%Z.ltb_lt. exists l. auto.
      * rewrite days_exhausted_unlimited by auto. discriminate.
    + intros (l & E & Hl & Hlt).
      rewrite (days_exhausted_limited c today l E Hl). now apply Z.ltb_lt.
  - intros l E Hl. rewrite (days_exhausted_limited c today l E Hl).
    rewrite Z.ltb_ge. lia.
Qed.

Lemma days_exhausted_rule_witness :
  (start_date test10 <= 103 /\ days_exhausted test10 103 = false
   <-> start_date test10 <= 103 < start_date test10 + 5).
Proof.
  apply (proj2 (days_exhausted_rule test10 103) 5); [reflexivity | lia].
Defined.

(** C8, as stated, fails for a limit set to zero: the stated formula gives
    0 remaining days, the code ignores the limit. *)
Lemma days_left_zero_limit_counterexample :
  run_days_limit zero_run_days = Some 0 /\
  days_left_as_specified zero_run_days 12 = 0 /\
  days_left zero_run_days 12 = 9 /\
  days_left zero_run_days 12 <> days_left_as_specified zero_run_days 12.
Proof. repeat split. discriminate. Qed.

(** C8 (amended): the remaining days are 0 once [today > end_date];
    otherwise they are [min (end_date - today + 1) (L - days_used_so_far)]
    when [run_days_limit] is set to a non-zero [L], and
    [end_date - today + 1] when it is unset or zero, floored at 0. *)
Theorem days_left_formula (c : Campaign) (today : date) :
  days_left c today =
    if end_date c <? today then 0
    else
      Z.max 0
        match run_days_limit c with
        | Some l =>
            if l =? 0 then end_date c - today + 1
            else Z.min (end_date c - today + 1) (l - days_used_so_far c today)
        | None => end_date c - today + 1
        end.
Proof.
  unfold days_left, days_used_so_far, truthy_int.
  destruct (Z.ltb_spec (end_date c) today) as [|Hle]; [reflexivity|].
  destruct (run_days_limit c) as [l|]; [|reflexivity].
  destruct (Z.eqb_spec l 0); simpl; lia.
Qed.

(** * Decimal arithmetic: truncation to two places *)

Section Truncation.

Local Open Scope Q_scope.

Lemma Qtruncate_comp (x y : Q) : x == y -> Qtruncate x = Qtruncate y.
Proof.
  intros E. unfold Qtruncate. rewrite E.
  destruct (Qle_bool 0 y); [apply Qfloor_comp | apply Qceiling_comp]; exact E.
Qed.

Lemma Qtruncate_Z (n : Z) : Qtruncate (inject_Z n) = n.
Proof.
  unfold Qtruncate. destruct (Qle_bool 0 (inject_Z n));
    [apply Qfloor_Z | apply Qceiling_Z].
Qed.

Lemma Qtruncate_nonneg (x : Q) : 0 <= x -> Qtruncate x = Qfloor x.
Proof.
  intros H. unfold Qtruncate. apply Qle_bool_iff in H. now rewrite H.
Qed.

Lemma Qtruncate_neg (x : Q) : x < 0 -> Qtruncate x = Qceiling x.
Proof.
  intros H. unfold Qtruncate.
  destruct (Qle_bool 0 x) eqn:E; [|reflexivity].
  apply Qle_bool_iff in E. exfalso. lra.
Qed.

Lemma Qfloor_nonneg (x : Q) : 0 <= x -> (0 <= Qfloor x)%Z.
Proof. intros H. apply Qfloor_resp_le in H. exact H. Qed.

Lemma Qceiling_nonpos (x : Q) : x <= 0 -> (Qceiling x <= 0)%Z.
Proof. intros H. apply Qceiling_resp_le in H. exact H. Qed.

Lemma Qtruncate_mono (x y : Q) : x <= y -> (Qtruncate x <= Qtruncate y)%Z.
Proof.
  intros H.
  destruct (Qlt_le_dec x 0) as [Hx|Hx], (Qlt_le_dec y 0) as [Hy|Hy].
  - rewrite !Qtruncate_neg by assumption. now apply Qceiling_resp_le.
  - rewrite Qtruncate_neg, Qtruncate_nonneg by assumption.
    pose proof (Qceiling_nonpos x ltac:(lra)).
    pose proof (Qfloor_nonneg y Hy). lia.
  - lra.
  - rewrite !Qtruncate_nonneg by assumption. now apply Qfloor_resp_le.
Qed.

Global Instance quantize_down_comp : Proper (Qeq ==> Qeq) quantize_down.
Proof.
  intros x y E. unfold quantize_down.
  rewrite (Qtruncate_comp (x * 100) (y * 100)); [reflexivity|].
  now rewrite E.
Qed.

Lemma quantize_down_two_places (x : Q) : two_places (quantize_down x).
Proof. exists (Qtruncate (x * 100)). reflexivity. Qed.

(** Truncation fixes the values that already have two places. *)
Lemma quantize_down_fixes (d : Q) : two_places d -> quantize_down d == d.
Proof.
  intros [k E]. unfold quantize_down.
  rewrite (Qtruncate_comp (d * 100) (inject_Z k)).
  - rewrite Qtruncate_Z. now rewrite E.
  - rewrite E. field.
Qed.

Lemma quantize_down_mono (x y : Q) :
  x <= y -> quantize_down x <= quantize_down y.
Proof.
  intros H. unfold quantize_down.
  assert (Hz : (Qtruncate (x * 100) <= Qtruncate (y * 100))%Z)
    by (apply Qtruncate_mono; lra).
  rewrite Zle_Qle in Hz.
  apply Qmult_le_compat_r with (z := / 100) in Hz;
    [exact Hz | apply Qinv_le_0_compat; lra].
Qed.

(** On a non-negative value the result is the largest two-place value not
    above it: the dropped part is less than one hundredth. *)
Lemma quantize_down_bounds (x : Q) :
  0 <= x -> 0 <= quantize_down x /\ quantize_down x <= x /\
            x < quantize_down x + 1 / 100.
Proof.
  intros H. unfold quantize_down.
  rewrite Qtruncate_nonneg by lra.
  pose proof (Qfloor_le (x * 100)) as Hlo.
  pose proof (Qlt_floor (x * 100)) as Hhi.
  pose proof (Qfloor_nonneg (x * 100) ltac:(lra)) as H0.
  rewrite Zle_Qle in H0. rewrite inject_Z_plus in Hhi.
  set (f := inject_Z (Qfloor (x * 100))) in *.
  change (inject_Z 0) with 0 in H0. change (inject_Z 1) with 1 in Hhi.
  repeat split.
  - apply Qle_shift_div_l; lra.
  - apply Qle_shift_div_r; lra.
  - assert (E : f / 100 + 1 / 100 == (f + 1) / 100) by field.
    rewrite E. apply Qlt_shift_div_l; lra.
Qed.

(** Towards zero on the negative side: the result is never below the
    argument and never above zero. *)
Lemma quantize_down_neg (x : Q) :
  x <= 0 -> x <= quantize_down x /\ quantize_down x <= 0.
Proof.
  intros H. unfold quantize_down.
  destruct (Qlt_le_dec (x * 100) 0) as [Hn|Hp].
  - rewrite Qtruncate_neg by assumption.
    pose proof (Qle_ceiling (x * 100)) as Hlo.
    pose proof (Qceiling_nonpos (x * 100) ltac:(lra)) as H0.
    rewrite Zle_Qle in H0.
    set (f := inject_Z (Qceiling (x * 100))) in *.
    change (inject_Z 0) with 0 in H0.
    split.
    + apply Qle_shift_div_l; lra.
    + apply Qle_shift_div_r; lra.
  - assert (E : x == 0) by lra.
    rewrite (Qtruncate_comp (x * 100) (inject_Z 0)) by (rewrite E; reflexivity).
    rewrite Qtruncate_Z. rewrite E. split; compute; discriminate.
Qed.

(** Truncating after a two-place cap is capping after truncation. *)
Lemma quantize_down_min (x m : Q) :
  two_places m -> quantize_down (Qmin x m) == Qmin (quantize_down x) m.
Proof.
  intros Hm. pose proof (quantize_down_fixes m Hm) as Em.
  destruct (Q.min_spec x m) as [[Hlt E] | [Hle E]]; rewrite E.
  - pose proof (quantize_down_mono x m ltac:(lra)) as Hq.
    rewrite Em in Hq. symmetry. now apply Q.min_l.
  - pose proof (quantize_down_mono m x Hle) as Hq.
    rewrite Em in Hq. rewrite Em. symmetry. now apply Q.min_r.
Qed.

End Truncation.

(** * Decimal arithmetic: rounding to the context precision *)

Section ContextRounding.
Local Open Scope Q_scope.

Lemma pow10_pos (e : Z) : 0 < 10 ^ e.
Proof. apply Qpower_0_lt. reflexivity. Qed.

Lemma pow10_le (a b : Z) : (a <= b)%Z -> 10 ^ a <= 10 ^ b.
Proof. intros H. apply Qpower_le_compat_l; [exact H | discriminate]. Qed.

Lemma pow10_lt (a b : Z) : (a < b)%Z -> 10 ^ a < 10 ^ b.
Proof. intros H. apply Qpower_lt_compat_l; [exact H | reflexivity]. Qed.

Lemma pow10_lt_inv (a b : Z) : 10 ^ a < 10 ^ b -> (a < b)%Z.
Proof. intros H. apply (Qpower_lt_compat_l_inv 10); [exact H | reflexivity]. Qed.

Lemma pow10_plus (a b : Z) : 10 ^ (a + b) == 10 ^ a * 10 ^ b.
Proof. apply Qpower_plus. discriminate. Qed.

Lemma pow10_Z (k : Z) : (0 <= k)%Z -> 10 ^ k == inject_Z (10 ^ k).
Proof. intros H. symmetry. exact (Zpower_Qpower 10 k H). Qed.

Lemma exponent_from_spec (fuel : nat) (x : Q) :
  forall e : Z,
    10 ^ (e + 27) <= x -> x < 10 ^ (e + Z.of_nat fuel + 28) ->
    10 ^ (exponent_from fuel e x + 27) <= x /\
    x < 10 ^ (exponent_from fuel e x + 28).
Proof.
  induction fuel as [|fuel IH]; intros e Hlo Hhi.
  - simpl. split; [exact Hlo|].
    replace (e + Z.of_nat 0 + 28)%Z with (e + 28)%Z in Hhi by lia. exact Hhi.
  - cbn [exponent_from].
    destruct (Qle_bool (10 ^ (e + 28)) x) eqn:E.
    + apply Qle_bool_iff in E. apply IH.
      * replace (e + 1 + 27)%Z with (e + 28)%Z by lia. exact E.
      * replace (e + 1 + Z.of_nat fuel + 28)%Z
          with (e + Z.of_nat (S fuel) + 28)%Z by lia.
        exact Hhi.
    + split; [exact Hlo|]. apply Qnot_le_lt. intros H.
      apply Qle_bool_iff in H. congruence.
Qed.

Lemma Zpos_lt_pow10 (p : positive) :
  (Z.pos p < 10 ^ (Z.log2 (Z.pos p) + 1))%Z.
Proof.
  pose proof (Z.log2_spec (Z.pos p) ltac:(lia)) as [_ H].
  pose proof (Z.log2_nonneg (Z.pos p)).
  assert ((2 ^ Z.succ (Z.log2 (Z.pos p)) <= 10 ^ Z.succ (Z.log2 (Z.pos p)))%Z)
    by (apply Z.pow_le_mono_l; lia).
  unfold Z.succ in *. lia.
Qed.

Lemma sig_exponent_spec (x : Q) :
  0 < x ->
  10 ^ (sig_exponent x + 27) <= x /\ x < 10 ^ (sig_exponent x + 28).
Proof.
  intros Hx. unfold sig_exponent.
  destruct x as [n d]. simpl Qnum. simpl Qden.
  assert (Hn : (0 < n)%Z).
  { unfold Qlt in Hx. simpl in Hx. lia. }
  destruct n as [|n|n]; try lia.
  pose proof (Zpos_lt_pow10 n) as Hnb.
  pose proof (Zpos_lt_pow10 d) as Hdb.
  pose proof (Z.log2_nonneg (Z.pos n)) as Ln.
  pose proof (Z.log2_nonneg (Z.pos d)) as Ld.
  set (ln := Z.log2 (Z.pos n)) in *. set (ld := Z.log2 (Z.pos d)) in *.
  apply exponent_from_spec.
  - replace (- ld - 28 + 27)%Z with (- (ld + 1))%Z by lia.
    rewrite Qpower_opp, (pow10_Z (ld + 1)) by lia.
    apply Qle_shift_inv_r.
    + change 0 with (inject_Z 0). rewrite <- Zlt_Qlt. lia.
    + unfold Qle, Qmult, inject_Z. simpl.
      rewrite Z.mul_1_r. nia.
  - rewrite Z2Nat.id by lia.
    replace (- ld - 28 + (ln + ld + 3) + 28)%Z with (ln + 3)%Z by lia.
    apply Qlt_le_trans with (y := inject_Z (10 ^ (ln + 1))).
    + unfold Qlt, inject_Z. simpl. nia.
    + rewrite <- pow10_Z by lia. apply pow10_le. lia.
Qed.

Lemma round_half_even_comp (x y : Q) :
  x == y -> round_half_even x = round_half_even y.
Proof.
  intros E. unfold round_half_even. cbv zeta.
  rewrite (Qfloor_comp x y E).
  assert (Er : x - inject_Z (Qfloor y) == y - inject_Z (Qfloor y))
    by (rewrite E; reflexivity).
  now rewrite !Er.
Qed.

Lemma round_half_even_Z (z : Z) : round_half_even (inject_Z z) = z.
Proof.
  unfold round_half_even. cbv zeta. rewrite Qfloor_Z.
  assert (E : inject_Z z - inject_Z z == 0) by ring.
  rewrite !E. reflexivity.
Qed.

Lemma round_half_even_floor (x : Q) :
  (Qfloor x <= round_half_even x <= Qfloor x + 1)%Z.
Proof.
  unfold round_half_even. cbv zeta.
  destruct (Qle_bool (x - inject_Z (Qfloor x)) (1 # 2));
    [destruct (Qle_bool (1 # 2) (x - inject_Z (Qfloor x)))|];
    try destruct (Z.even (Qfloor x)); lia.
Qed.

Lemma round_half_even_ge (x : Q) (n : Z) :
  inject_Z n <= x -> (n <= round_half_even x)%Z.
Proof.
  intros H. apply Qfloor_resp_le in H. rewrite Qfloor_Z in H.
  pose proof (round_half_even_floor x). lia.
Qed.

Lemma round_half_even_le (x : Q) (n : Z) :
  x <= inject_Z n -> (round_half_even x <= n)%Z.
Proof.
  intros H. destruct (Qlt_le_dec x (inject_Z n)) as [Hlt | Hge].
  - assert (Hf : (Qfloor x < n)%Z).
    { apply Z.lt_nge. intros Hn. rewrite Zle_Qle in Hn.
      pose proof (Qfloor_le x). lra. }
    pose proof (round_half_even_floor x). lia.
  - rewrite (round_half_even_comp x (inject_Z n)) by lra.
    rewrite round_half_even_Z. lia.
Qed.

Lemma round_half_even_mono (x y : Q) :
  x <= y -> (round_half_even x <= round_half_even y)%Z.
Proof.
  intros H.
  pose proof (Qfloor_resp_le x y H) as Hf.
  pose proof (round_half_even_floor x) as Hx.
  pose proof (round_half_even_floor y) as Hy.
  destruct (Z.eq_dec (Qfloor x) (Qfloor y)) as [E | Hne]; [|lia].
  unfold round_half_even. cbv zeta. rewrite E.
  set (f := Qfloor y) in *.
  destruct (Qle_bool (x - inject_Z f) (1 # 2)) eqn:X1;
    destruct (Qle_bool (1 # 2) (x - inject_Z f)) eqn:X2;
    destruct (Qle_bool (y - inject_Z f) (1 # 2)) eqn:Y1;
    destruct (Qle_bool (1 # 2) (y - inject_Z f)) eqn:Y2;
    try destruct (Z.even f); try lia;
    repeat match goal with
    | H : Qle_bool _ _ = true |- _ => apply Qle_bool_iff in H
    | H : Qle_bool ?a ?b = false |- _ =>
        assert (b < a)
          by (apply Qnot_le_lt; intros C; apply Qle_bool_iff in C; congruence);
        clear H
    end; exfalso; lra.
Qed.

Lemma sig_exponent_unique (x : Q) (e : Z) :
  10 ^ (e + 27) <= x -> x < 10 ^ (e + 28) -> sig_exponent x = e.
Proof.
  intros Hlo Hhi.
  assert (Hx : 0 < x) by (pose proof (pow10_pos (e + 27)); lra).
  destruct (sig_exponent_spec x Hx) as [Slo Shi].
  assert (H1 : (sig_exponent x + 27 < e + 28)%Z) by (apply pow10_lt_inv; lra).
  assert (H2 : (e + 27 < sig_exponent x + 28)%Z) by (apply pow10_lt_inv; lra).
  lia.
Qed.

Lemma sig_exponent_comp (x y : Q) :
  0 < x -> x == y -> sig_exponent x = sig_exponent y.
Proof.
  intros Hx E. assert (Hy : 0 < y) by lra.
  destruct (sig_exponent_spec y Hy) as [Slo Shi].
  apply sig_exponent_unique; lra.
Qed.

Lemma sig_exponent_mono (x y : Q) :
  0 < x -> x <= y -> (sig_exponent x <= sig_exponent y)%Z.
Proof.
  intros Hx Hle. assert (Hy : 0 < y) by lra.
  destruct (sig_exponent_spec x Hx) as [Xlo Xhi].
  destruct (sig_exponent_spec y Hy) as [Ylo Yhi].
  assert (H : (sig_exponent x + 27 < sig_exponent y + 28)%Z)
    by (apply pow10_lt_inv; lra).
  lia.
Qed.

Lemma scaled_bounds (x : Q) :
  0 < x ->
  inject_Z (10 ^ 27) <= x / 10 ^ sig_exponent x /\
  x / 10 ^ sig_exponent x <= inject_Z (10 ^ 28).
Proof.
  intros Hx. destruct (sig_exponent_spec x Hx) as [Hlo Hhi].
  pose proof (pow10_pos (sig_exponent x)) as Hp.
  rewrite pow10_plus in Hlo, Hhi.
  rewrite <- !pow10_Z by lia.
  split.
  - apply Qle_shift_div_l; [exact Hp|]. lra.
  - apply Qle_shift_div_r; [exact Hp|]. lra.
Qed.

Lemma context_round_pos_bounds (x : Q) :
  0 < x ->
  10 ^ (sig_exponent x + 27) <= context_round_pos x /\
  context_round_pos x <= 10 ^ (sig_exponent x + 28).
Proof.
  intros Hx. destruct (scaled_bounds x Hx) as [Hlo Hhi].
  apply round_half_even_ge in Hlo. apply round_half_even_le in Hhi.
  rewrite Zle_Qle in Hlo, Hhi. rewrite <- !pow10_Z in Hlo, Hhi by lia.
  unfold context_round_pos. cbv zeta.
  pose proof (pow10_pos (sig_exponent x)) as Hp.
  rewrite !pow10_plus.
  set (r := inject_Z (round_half_even (x / 10 ^ sig_exponent x))) in *.
  set (p := 10 ^ sig_exponent x) in *.
  set (c27 := 10 ^ 27) in *. set (c28 := 10 ^ 28) in *.
  split; nra.
Qed.

Lemma context_round_pos_comp (x y : Q) :
  0 < x -> x == y -> context_round_pos x == context_round_pos y.
Proof.
  intros Hx E. unfold context_round_pos. cbv zeta.
  rewrite (sig_exponent_comp x y Hx E).
  rewrite (round_half_even_comp (x / 10 ^ sig_exponent y)
             (y / 10 ^ sig_exponent y)) by (now rewrite E).
  reflexivity.
Qed.

Lemma context_round_pos_mono (x y : Q) :
  0 < x -> x <= y -> context_round_pos x <= context_round_pos y.
Proof.
  intros Hx Hle. assert (Hy : 0 < y) by lra.
  pose proof (sig_exponent_mono x y Hx Hle) as He.
  destruct (Z.eq_dec (sig_exponent x) (sig_exponent y)) as [E | Hne].
  - unfold context_round_pos. cbv zeta. rewrite E.
    pose proof (pow10_pos (sig_exponent y)) as Hp.
    apply Qmult_le_compat_r; [|lra].
    rewrite <- Zle_Qle. apply round_half_even_mono.
    apply Qmult_le_compat_r; [exact Hle|].
    apply Qinv_le_0_compat. lra.
  - destruct (context_round_pos_bounds x Hx) as [_ Hx'].
    destruct (context_round_pos_bounds y Hy) as [Hy' _].
    pose proof (pow10_le (sig_exponent x + 28) (sig_exponent y + 27)
                  ltac:(lia)).
    lra.
Qed.

Lemma context_round_zero (x : Q) : x == 0 -> context_round x = 0.
Proof.
  intros E. unfold context_round. now rewrite (Qeq_eq_bool _ _ E).
Qed.

Lemma context_round_positive (x : Q) :
  0 < x -> context_round x = context_round_pos x.
Proof.
  intros H. unfold context_round.
  destruct (Qeq_bool x 0) eqn:E0.
  - apply Qeq_bool_eq in E0. exfalso. lra.
  - assert (Hle : Qle_bool 0 x = true) by (apply Qle_bool_iff; lra).
    now rewrite Hle.
Qed.

Lemma context_round_negative (x : Q) :
  x < 0 -> context_round x = - context_round_pos (- x).
Proof.
  intros H. unfold context_round.
  destruct (Qeq_bool x 0) eqn:E0.
  - apply Qeq_bool_eq in E0. exfalso. lra.
  - destruct (Qle_bool 0 x) eqn:Hle; [|reflexivity].
    apply Qle_bool_iff in Hle. exfalso. lra.
Qed.

Global Instance context_round_comp : Proper (Qeq ==> Qeq) context_round.
Proof.
  intros x y E.
  destruct (Q_dec x 0) as [[Hneg | Hpos] | H0].
  - rewrite (context_round_negative x Hneg),
      (context_round_negative y ltac:(lra)).
    apply Qopp_comp. apply context_round_pos_comp; [lra | now rewrite E].
  - rewrite (context_round_positive x Hpos),
      (context_round_positive y ltac:(lra)).
    now apply context_round_pos_comp.
  - rewrite (context_round_zero x H0), (context_round_zero y ltac:(lra)).
    reflexivity.
Qed.

Lemma context_round_nonneg (x : Q) : 0 <= x -> 0 <= context_round x.
Proof.
  intros H. destruct (Qlt_le_dec 0 x) as [Hpos | H0].
  - rewrite (context_round_positive x Hpos).
    destruct (context_round_pos_bounds x Hpos) as [Hlo _].
    pose proof (pow10_pos (sig_exponent x + 27)). lra.
  - rewrite (context_round_zero x ltac:(lra)). lra.
Qed.

Lemma context_round_mono (x y : Q) :
  0 <= x -> x <= y -> context_round x <= context_round y.
Proof.
  intros H0 Hle. destruct (Qlt_le_dec 0 x) as [Hpos | Hz].
  - rewrite (context_round_positive x Hpos),
      (context_round_positive y ltac:(lra)).
    now apply context_round_pos_mono.
  - rewrite (context_round_zero x ltac:(lra)).
    apply context_round_nonneg. lra.
Qed.

Lemma context_round_pos_exact (x : Q) (m j : Z) :
  0 < x -> x == inject_Z m * 10 ^ j -> (Z.abs m < 10 ^ 28)%Z ->
  context_round_pos x == x.
Proof.
  intros Hx E Hm.
  pose proof (pow10_pos j) as Hj.
  assert (Hm0 : (0 < m)%Z).
  { apply Z.lt_nge. intros Hneg. rewrite Zle_Qle in Hneg.
    change (inject_Z 0) with 0 in Hneg.
    assert (inject_Z m * 10 ^ j <= 0) by nra. lra. }
  destruct (sig_exponent_spec x Hx) as [Hlo Hhi].
  set (e := sig_exponent x) in *.
  assert (He : (e <= j)%Z).
  { assert (Hlt : inject_Z m < inject_Z (10 ^ 28))
      by (rewrite <- Zlt_Qlt; lia).
    rewrite <- pow10_Z in Hlt by lia.
    assert (H : 10 ^ (e + 27) < 10 ^ (28 + j)).
    { rewrite (pow10_plus 28 j).
      apply Qle_lt_trans with (y := x); [exact Hlo|].
      rewrite E. apply Qmult_lt_compat_r; assumption. }
    apply pow10_lt_inv in H. lia. }
  assert (Hscaled : x / 10 ^ e == inject_Z (m * 10 ^ (j - e))).
  { rewrite inject_Z_mult, <- pow10_Z by lia.
    rewrite (Qpower_minus 10 j e) by discriminate.
    rewrite E. unfold Qdiv. ring. }
  unfold context_round_pos. cbv zeta. fold e.
  rewrite (round_half_even_comp _ _ Hscaled), round_half_even_Z.
  rewrite <- Hscaled. field.
  pose proof (pow10_pos e). lra.
Qed.

(** Within the context precision nothing is rounded. *)
Lemma context_round_exact (x : Q) : fits_context x -> context_round x == x.
Proof.
  intros (m & j & E & Hm).
  destruct (Q_dec x 0) as [[Hneg | Hpos] | H0].
  - rewrite (context_round_negative x Hneg).
    rewrite (context_round_pos_exact (- x) (- m) j); [ring | lra | |].
    + rewrite E, inject_Z_opp. ring.
    + now rewrite Z.abs_opp.
  - rewrite (context_round_positive x Hpos).
    now apply (context_round_pos_exact x m j).
  - rewrite (context_round_zero x H0). now symmetry.
Qed.

Lemma fits_context_div100 (x : Q) : fits_context x -> fits_context (x / 100).
Proof.
  intros (m & j & E & Hm). exists m, (j - 2)%Z. split; [|exact Hm].
  rewrite (Qpower_minus 10 j 2) by discriminate. rewrite E.
  change (10 ^ 2) with 100. unfold Qdiv. ring.
Qed.

End ContextRounding.

(** * The PERCENT rounding law *)

(** Within the context precision the product and the quotient are exact. *)
Lemma percent_exact (a v : Decimal) :
  fits_context (a * v) ->
  (context_round (context_round (a * v) / 100) == a * v / 100)%Q.
Proof.
  intros Hfit.
  assert (E : (context_round (a * v) / 100 == a * v / 100)%Q)
    by (now rewrite (context_round_exact _ Hfit)).
  rewrite E. apply context_round_exact. now apply fits_context_div100.
Qed.

(** The value the code computes for a PERCENT campaign, before the final
    comparison with the specified one. *)
Lemma compute_raw_discount_percent (c : Campaign) (B : Decimal) :
  discount_type c = PERCENT -> (0 <= B)%Q ->
  fits_context (B * discount_value c) ->
  (_compute_raw_discount c B ==
     Qmax 0 (quantize_down
               match max_discount_amount c with
               | Some m =>
                   if Qeq_bool m 0 then B * discount_value c / 100
                   else Qmin (B * discount_value c / 100) m
               | None => B * discount_value c / 100
               end))%Q.
Proof.
  intros Ht HB Hfit. unfold _compute_raw_discount, truthy_dec. rewrite Ht.
  assert (EB : (Qmax 0 B == B)%Q) by now apply Q.max_r.
  assert (Ep : (context_round
                  (context_round (Qmax 0 B * discount_value c) / 100)
                == B * discount_value c / 100)%Q).
  { assert (Em : (Qmax 0 B * discount_value c == B * discount_value c)%Q)
      by (now rewrite EB).
    rewrite Em. now apply percent_exact. }
  destruct (max_discount_amount c) as [m|].
  - destruct (Qeq_bool m 0); simpl; now rewrite Ep.
  - now rewrite Ep.
Qed.

(** 10 percent of 0.95 is 0.095, which is cut to 0.09 and not rounded to
    0.10. *)
Example percent_truncates :
  (_compute_raw_discount test10 (95 # 100) == 9 # 100)%Q.
Proof. vm_compute. reflexivity. Qed.

(** Every two-place amount below ten thousand million, which is what the
    request serializer admits ([max_digits=12, decimal_places=2]), times a
    two-place percentage fits the context. *)
Lemma request_amount_fits (B V : Decimal) :
  two_places B -> two_places V ->
  (0 <= B < 10000000000)%Q -> (0 <= V <= 100)%Q ->
  fits_context (B * V).
Proof.
  intros [k Hk] [l Hl] [HB0 HB] [HV0 HV].
  assert (Ek : (inject_Z k == B * 100)%Q) by (rewrite Hk; field).
  assert (El : (inject_Z l == V * 100)%Q) by (rewrite Hl; field).
  assert (Hk0 : 0 <= k < 10 ^ 12).
  { split; [rewrite Zle_Qle | rewrite Zlt_Qlt]; rewrite Ek.
    - change (inject_Z 0) with 0%Q. lra.
    - change (inject_Z (10 ^ 12)) with 1000000000000%Q. lra. }
  assert (Hl0 : 0 <= l <= 10 ^ 4).
  { split; rewrite Zle_Qle, El.
    - change (inject_Z 0) with 0%Q. lra.
    - change (inject_Z (10 ^ 4)) with 10000%Q. lra. }
  exists (k * l), (-4). split.
  - rewrite Hk, Hl, inject_Z_mult. change (10 ^ (-4))%Q with (/ 10000)%Q.
    field.
  - rewrite Z.abs_eq by nia.
    change (10 ^ 28) with (10 ^ 12 * 10 ^ 16). nia.
Qed.




(** * The ledger under [get_or_create] *)

Section LedgerFrame.

Lemma get_or_create_usage_reads (k : Z * Z * Z) (s : Ledger) :
  fst (get_or_create_usage k s) = txn_count s k.
Proof.
  unfold get_or_create_usage, txn_count.
  destruct (usages s !! k); reflexivity.
Qed.

Lemma get_or_create_budget_reads (cid : Z) (s : Ledger) :
  fst (get_or_create_budget cid s) = total_discount_given s cid.
Proof.
  unfold get_or_create_budget, total_discount_given.
  destruct (budgets s !! cid); reflexivity.
Qed.

Lemma adds_zero_rows_refl (s : Ledger) : adds_zero_rows s s.
Proof. split; intros; left; reflexivity. Qed.

Lemma adds_zero_rows_trans (s1 s2 s3 : Ledger) :
  adds_zero_rows s1 s2 -> adds_zero_rows s2 s3 -> adds_zero_rows s1 s3.
Proof.
  intros [U12 B12] [U23 B23]. split.
  - intros k. destruct (U12 k) as [E|[E1 E2]], (U23 k) as [F|[F1 F2]];
      first [left; congruence | right; split; congruence].
  - intros k. destruct (B12 k) as [E|[E1 E2]], (B23 k) as [F|[F1 F2]];
      first [left; congruence | right; split; congruence].
Qed.

Lemma get_or_create_usage_adds (k : Z * Z * Z) (s : Ledger) :
  adds_zero_rows s (snd (get_or_create_usage k s)).
Proof.
  unfold get_or_create_usage.
  destruct (usages s !! k) eqn:E; simpl; [apply adds_zero_rows_refl|].
  split; simpl; [|now left].
  intros k'. destruct (decide (k = k')) as [<-|Hne].
  - right. now rewrite lookup_insert_eq.
  - left. now rewrite lookup_insert_ne.
Qed.

Lemma get_or_create_budget_adds (cid : Z) (s : Ledger) :
  adds_zero_rows s (snd (get_or_create_budget cid s)).
Proof.
  unfold get_or_create_budget.
  destruct (budgets s !! cid) eqn:E; simpl; [apply adds_zero_rows_refl|].
  split; simpl; [now left|].
  intros k'. destruct (decide (cid = k')) as [<-|Hne].
  - right. now rewrite lookup_insert_eq.
  - left. now rewrite lookup_insert_ne.
Qed.

Lemma adds_zero_rows_counters (s s' : Ledger) :
  adds_zero_rows s s' -> counters_unchanged s s'.
Proof.
  intros [U B]. unfold counters_unchanged, txn_count, total_discount_given.
  repeat split.
  - intros k n E. destruct (U k) as [F|[F1 F2]]; congruence.
  - intros k g E. destruct (B k) as [F|[F1 F2]]; congruence.
  - intros k. destruct (U k) as [F|[F1 F2]]; [now rewrite F|].
    now rewrite F1, F2.
  - intros k. destruct (B k) as [F|[F1 F2]]; [now rewrite F|].
    now rewrite F1, F2.
Qed.

Lemma counters_unchanged_refl (s : Ledger) : counters_unchanged s s.
Proof. apply adds_zero_rows_counters, adds_zero_rows_refl. Qed.

End LedgerFrame.

(** * Preview: evaluation order and effect on the ledger *)

Section Preview.

Variable c : Campaign.
Variable cart : Cart.
Variable today : date.

Lemma per_day_txn_left_eq (s : Ledger) :
  _per_day_txn_left c (customer cart) today s =
    (remaining_today c cart today s,
     snd (get_or_create_usage (usage_key c (customer cart) today) s)).
Proof.
  unfold _per_day_txn_left, bind, ret, remaining_today.
  rewrite <- (get_or_create_usage_reads (usage_key c (customer cart) today) s).
  destruct (get_or_create_usage _ s); reflexivity.
Qed.

Lemma budget_remaining_eq (s : Ledger) :
  _budget_remaining c s =
    (budget_left c s,
     if budget_capped c then snd (get_or_create_budget (campaign_id c) s)
     else s).
Proof.
  unfold _budget_remaining, budget_left, budget_capped, bind, ret.
  destruct (total_budget_limit c) as [lim|]; [|reflexivity].
  destruct (truthy_dec lim); simpl; [|reflexivity].
  rewrite <- (get_or_create_budget_reads (campaign_id c) s).
  destruct (get_or_create_budget (campaign_id c) s); reflexivity.
Qed.

Lemma get_or_create_usage_budgets (k : Z * Z * Z) (s : Ledger) :
  budgets (snd (get_or_create_usage k s)) = budgets s.
Proof.
  unfold get_or_create_usage. destruct (usages s !! k); reflexivity.
Qed.

Lemma budget_left_usage_row (k : Z * Z * Z) (s : Ledger) :
  budget_left c (snd (get_or_create_usage k s)) = budget_left c s.
Proof.
  unfold budget_left, total_discount_given.
  now rewrite get_or_create_usage_budgets.
Qed.

Lemma budget_capped_remaining (s : Ledger) :
  budget_capped c =
    match budget_left c s with Some _ => true | None => false end.
Proof.
  unfold budget_left, budget_capped.
  destruct (total_budget_limit c) as [lim|]; [|reflexivity].
  destruct (truthy_dec lim); reflexivity.
Qed.

Lemma preview_discount_eq (s : Ledger) :
  preview_discount c cart today s =
    (preview_as_specified c cart today s, ledger_after_preview c cart today s).
Proof.
  unfold preview_discount, preview_as_specified, ledger_after_preview,
    ordered_checks, first_failing.
  fold (check_schedule c today).
  destruct (check_schedule c today); simpl; [|reflexivity].
  destruct (_eligible_customer c (customer cart)); simpl; [|reflexivity].
  unfold bind at 1. rewrite per_day_txn_left_eq.
  unfold check_daily. rewrite (Z.leb_antisym 0 (remaining_today c cart today s)).
  destruct (0 <? remaining_today c cart today s); simpl; [|reflexivity].
  unfold check_base, Qlt_bool. fold (selected_base c cart).
  destruct (Qle_bool (selected_base c cart) 0); simpl; [reflexivity|].
  unfold bind. rewrite budget_remaining_eq, budget_left_usage_row.
  unfold check_budget, check_discount, final_discount.
  rewrite (budget_capped_remaining s).
  destruct (budget_left c s) as [r|]; unfold Qlt_bool.
  - destruct (Qle_bool r 0); simpl; [reflexivity|].
    destruct (Qle_bool (Qmin _ r) 0); reflexivity.
  - simpl. destruct (Qle_bool _ 0); reflexivity.
Qed.

(** The model property reads the same remaining budget without creating
    the row. *)
Lemma remaining_budget_agrees (s : Ledger) (r : Decimal) :
  fst (_budget_remaining c s) = Some r ->
  exists r', remaining_budget c (budgets s !! campaign_id c) = Some r' /\
             (r' == r)%Q.
Proof.
  rewrite budget_remaining_eq. simpl.
  unfold budget_left, remaining_budget, total_discount_given.
  destruct (total_budget_limit c) as [lim|]; [|discriminate].
  destruct (budget_capped c); [|discriminate].
  intros [= <-].
  destruct (budgets s !! campaign_id c) as [g|]; simpl; eexists;
    (split; [reflexivity|]); [reflexivity | ring].
Qed.

Lemma preview_adds_zero_rows (s : Ledger) :
  adds_zero_rows s (snd (preview_discount c cart today s)).
Proof.
  rewrite preview_discount_eq. simpl. unfold ledger_after_preview.
  destruct (_ && _); [|apply adds_zero_rows_refl].
  destruct (_ && _).
  - eapply adds_zero_rows_trans;
      [apply get_or_create_usage_adds | apply get_or_create_budget_adds].
  - apply get_or_create_usage_adds.
Qed.

End Preview.

(** * Redeem: the locked part and the whole call *)

Section Redeem.

Variable c : Campaign.
Variable cart : Cart.
Variable today : date.

Lemma redeem_locked_eq (disc : Decimal) (s : Ledger) :
  redeem_locked c cart today disc s =
    if max_txn_per_customer_per_day c
       <=? txn_count s (usage_key c (customer cart) today)
    then (race_rejected,
          snd (get_or_create_usage (usage_key c (customer cart) today) s))
    else (redeem_committed c disc, ledger_after_commit c cart today disc s).
Proof.
  unfold redeem_locked, ledger_after_commit, bind, ret, save_usage,
    save_budget, get_or_create_usage, get_or_create_budget, txn_count,
    total_discount_given, budget_capped.
  set (key := usage_key c (customer cart) today).
  destruct (usages s !! key) as [n|] eqn:Eu; simpl;
    destruct (max_txn_per_customer_per_day c <=? _); try reflexivity;
    destruct (total_budget_limit c) as [lim|]; simpl;
    try destruct (truthy_dec lim); simpl;
    try destruct (budgets s !! campaign_id c) as [g|] eqn:Eb; simpl;
    rewrite ?insert_insert_eq; reflexivity.
Qed.

(** A passed preview returns the final discount and has seen a usage
    counter below the daily maximum. *)
Lemma preview_applicable_inv (s : Ledger) :
  get_applicable (preview_as_specified c cart today s) = true ->
  preview_as_specified c cart today s =
    preview_applicable c (final_discount c cart s) /\
  first_failing (ordered_checks c cart today s) = None.
Proof.
  unfold preview_as_specified.
  destruct (first_failing _); [discriminate | auto].
Qed.

Lemma first_failing_none_checks (s : Ledger) :
  first_failing (ordered_checks c cart today s) = None ->
  check_schedule c today = true /\
  _eligible_customer c (customer cart) = true /\
  check_daily c cart today s = true /\
  check_base c cart = true /\
  check_budget c s = true /\
  check_discount c cart s = true.
Proof.
  unfold ordered_checks, first_failing.
  destruct (check_schedule _ _); [|discriminate].
  destruct (_eligible_customer _ _); [|discriminate].
  destruct (check_daily _ _ _ _); [|discriminate].
  destruct (check_base _ _); [|discriminate].
  destruct (check_budget _ _); [|discriminate].
  destruct (check_discount _ _ _); [|discriminate].
  auto 10.
Qed.

Lemma check_daily_below_max (s : Ledger) :
  check_daily c cart today s = true ->
  txn_count s (usage_key c (customer cart) today)
    < max_txn_per_customer_per_day c.
Proof.
  unfold check_daily, remaining_today. intros H%Z.ltb_lt. lia.
Qed.

(** The whole call, with other transactions committing between the
    preview and the lock. *)
Lemma redeem_discount_racing_eq (other : Ledger -> Ledger) (s : Ledger) :
  redeem_discount_racing other c cart today s =
    let prev := preview_as_specified c cart today s in
    let s1 := ledger_after_preview c cart today s in
    if get_applicable prev then
      let (r, s2) :=
        redeem_locked c cart today (final_discount c cart s) (other s1) in
      (Some r, s2)
    else (Some prev, s1).
Proof.
  unfold redeem_discount_racing. rewrite preview_discount_eq. simpl.
  destruct (get_applicable _) eqn:E; simpl; [|reflexivity].
  destruct (preview_applicable_inv s E) as [-> _]. reflexivity.
Qed.

Lemma redeem_discount_sequential (s : Ledger) :
  redeem_discount c cart today s =
    redeem_discount_racing (fun s1 => s1) c cart today s.
Proof. reflexivity. Qed.

(** Called on its own, redeem never reaches the re-check with a full
    usage row: it either returns the rejected preview or commits. *)
Lemma redeem_discount_eq (s : Ledger) :
  redeem_discount c cart today s =
    let prev := preview_as_specified c cart today s in
    let s1 := ledger_after_preview c cart today s in
    if get_applicable prev then
      (Some (redeem_committed c (final_discount c cart s)),
       ledger_after_commit c cart today (final_discount c cart s) s1)
    else (Some prev, s1).
Proof.
  rewrite redeem_discount_sequential, redeem_discount_racing_eq. simpl.
  destruct (get_applicable _) eqn:E; [|reflexivity].
  rewrite redeem_locked_eq.
  destruct (preview_applicable_inv s E) as [_ Hnone].
  apply first_failing_none_checks in Hnone as (_ & _ & Hd & _).
  apply check_daily_below_max in Hd.
  pose proof (preview_adds_zero_rows c cart today s) as Hadd.
  rewrite preview_discount_eq in Hadd. simpl in Hadd.
  apply adds_zero_rows_counters in Hadd as (_ & _ & Ht & _).
  rewrite Ht.
  destruct (Z.leb_spec (max_txn_per_customer_per_day c)
              (txn_count s (usage_key c (customer cart) today)));
    [lia | reflexivity].
Qed.

End Redeem.

(** * Properties of preview *)

Lemma Qlt_bool_iff (x y : Q) : Qlt_bool x y = true <-> (x < y)%Q.
Proof.
  unfold Qlt_bool. rewrite negb_true_iff.
  split.
  - intros H. apply Qnot_le_lt. intros Hle%Qle_bool_iff. congruence.
  - intros H. destruct (Qle_bool y x) eqn:E; [|reflexivity].
    apply Qle_bool_iff in E. exfalso. lra.
Qed.

Lemma existsb_eqb_elem_of (u : Z) (l : list Z) :
  existsb (Z.eqb u) l = bool_decide (u ∈ l).
Proof.
  induction l as [|x l IH]; cbn [existsb].
  - symmetry. apply bool_decide_eq_false_2. rewrite elem_of_nil. tauto.
  - rewrite IH. destruct (Z.eqb_spec u x) as [-> | Hne]; cbn [orb].
    + symmetry. apply bool_decide_eq_true_2. rewrite elem_of_cons. now left.
    + apply bool_decide_ext. rewrite elem_of_cons. tauto.
Qed.

Lemma customer_targeted_eq (c : Campaign) (user : Z) :
  customer_targeted c user = _eligible_customer c user.
Proof.
  unfold customer_targeted, _eligible_customer.
  rewrite existsb_eqb_elem_of. now destruct (allow_all_customers c).
Qed.

Lemma within_schedule_eq (c : Campaign) (today : date) :
  within_schedule truthy_int c today = check_schedule c today.
Proof.
  unfold within_schedule, check_schedule, is_within_date_window,
    day_exhausted_by_rule, days_exhausted.
  rewrite <- !andb_assoc. do 3 f_equal.
  destruct (run_days_limit c) as [l|]; [|reflexivity].
  now destruct (truthy_int l).
Qed.

Lemma budget_still_open_eq (c : Campaign) (s : Ledger) :
  budget_still_open truthy_dec c s = budget_left c s.
Proof.
  unfold budget_still_open, budget_left, budget_capped.
  now destruct (total_budget_limit c).
Qed.

Lemma preview_by_stated_order_eq
    (c : Campaign) (cart : Cart) (today : date) (s : Ledger) :
  preview_by_stated_order truthy_int truthy_dec c cart today s
    = preview_as_specified c cart today s.
Proof.
  unfold preview_by_stated_order, preview_as_specified, stated_checks,
    ordered_checks, discount_within_budget, final_discount, check_daily,
    check_base, check_budget, check_discount, final_discount,
    redemptions_left_today, remaining_today, usage_key.
  now rewrite within_schedule_eq, customer_targeted_eq, budget_still_open_eq.
Qed.

(** C4, as stated, fails where a limit is set to zero.  With
    [total_budget_limit] 0.00 the remaining budget is 0.00, so check (5)
    fails and the stated order gives "Budget exhausted."; the code returns
    applicable with 50.00.  With [run_days_limit] 0 the campaign is
    day-exhausted by the rule from its first day on, so check (1) fails;
    the code returns applicable. *)
Lemma preview_zero_limits_counterexample :
  (total_budget_limit zero_budget = Some 0%Q /\
   get_applicable
     (fst (preview_discount zero_budget cart500 100 empty_ledger)) = true /\
   get_reason
     (preview_by_stated_order any_limit any_cap zero_budget cart500 100
        empty_ledger) = Some "Budget exhausted." /\
   fst (preview_discount zero_budget cart500 100 empty_ledger)
     <> preview_by_stated_order any_limit any_cap zero_budget cart500 100
          empty_ledger) /\
  (run_days_limit zero_run_days = Some 0 /\
   get_applicable
     (fst (preview_discount zero_run_days cart500 12 empty_ledger)) = true /\
   get_reason
     (preview_by_stated_order any_limit any_cap zero_run_days cart500 12
        empty_ledger) = Some "Inactive or outside schedule." /\
   fst (preview_discount zero_run_days cart500 12 empty_ledger)
     <> preview_by_stated_order any_limit any_cap zero_run_days cart500 12
          empty_ledger).
Proof.
  split; (split; [reflexivity|]);
    (split; [vm_compute; reflexivity|]);
    (split; [vm_compute; reflexivity|]);
    intros H; apply (f_equal get_applicable) in H;
    vm_compute in H; discriminate.
Qed.

(** C4 (amended): the result of preview is the reason of the first failing
    check in the order (1) active, today within [start_date .. end_date]
    and not day-exhausted, where only a non-zero run-days limit exhausts;
    (2) all customers allowed or the customer on the allow-list; (3)
    today's remaining redemption count > 0; (4) selected base amount > 0;
    (5) remaining budget > 0 with the discount capped at it, where only a
    non-zero budget limit is a cap; (6) resulting discount > 0; it is the
    capped discount when none fails.  Later checks are not consulted: when
    check (1) or (2) fails the ledger is not even read (it is left as it
    was), and when check (3) or (4) fails the budget ledger is not read. *)
Theorem preview_first_failing_check
    (c : Campaign) (cart : Cart) (today : date) (s : Ledger) :
  fst (preview_discount c cart today s)
    = preview_by_stated_order truthy_int truthy_dec c cart today s /\
  (within_schedule truthy_int c today && customer_targeted c (customer cart)
     = false ->
   snd (preview_discount c cart today s) = s) /\
  ((0 <? redemptions_left_today c cart today s)
   && Qlt_bool 0 (selected_base c cart) = false ->
   budgets (snd (preview_discount c cart today s)) = budgets s).
Proof.
  rewrite preview_by_stated_order_eq, within_schedule_eq, customer_targeted_eq.
  rewrite preview_discount_eq. simpl. unfold ledger_after_preview.
  change (0 <? redemptions_left_today c cart today s)
    with (check_daily c cart today s).
  change (Qlt_bool 0 (selected_base c cart)) with (check_base c cart).
  split; [reflexivity | split].
  - intros ->. reflexivity.
  - intros ->. simpl.
    destruct (_ && _); [apply get_or_create_usage_budgets | reflexivity].
Qed.

Lemma preview_first_failing_check_witness :
  snd (preview_discount test10 cart500 200 empty_ledger) = empty_ledger /\
  budgets (snd (preview_discount test10 empty_cart 100 empty_ledger))
    = budgets empty_ledger.
Proof.
  split.
  - apply (proj1 (proj2 (preview_first_failing_check
                           test10 cart500 200 empty_ledger))).
    reflexivity.
  - apply (proj2 (proj2 (preview_first_failing_check
                           test10 empty_cart 100 empty_ledger))).
    reflexivity.
Defined.

(** Whatever preview does to the ledger, it changes no counter. *)
Lemma preview_keeps_counters
    (c : Campaign) (cart : Cart) (today : date) (s : Ledger) :
  counters_unchanged s (snd (preview_discount c cart today s)).
Proof. apply adds_zero_rows_counters, preview_adds_zero_rows. Qed.

(** C3: preview is documented not to mutate state, and it changes no
    counter ([preview_keeps_counters]); but it reads through
    [get_or_create] where [Campaign.remaining_budget] only reads, so on a
    ledger without the rows of this campaign and customer it leaves a new
    usage row and a new budget row behind: the set of ledger records is
    not as before the call. *)
Theorem preview_creates_ledger_rows :
  let s' := snd (preview_discount test10 cart500 100 empty_ledger) in
  usages empty_ledger !! (1, 7, 100) = None /\
  budgets empty_ledger !! 1 = None /\
  usages s' !! (1, 7, 100) = Some 0 /\
  budgets s' !! 1 = Some 0%Q /\
  s' <> empty_ledger.
Proof.
  repeat split.
  intros H. apply (f_equal (fun s => budgets s !! 1)) in H.
  vm_compute in H. discriminate.
Qed.

(** C10: a FLAT campaign with no per-redemption cap and no budget cap,
    whose (two-place) discount value is above a positive base, previews as
    applicable with the full discount value, more than the base it applies
    to. *)
Theorem flat_discount_exceeds_base
    (c : Campaign) (cart : Cart) (today : date) (s : Ledger) :
  discount_type c = FLAT ->
  max_discount_amount c = None ->
  total_budget_limit c = None ->
  two_places (discount_value c) ->
  check_schedule c today = true ->
  _eligible_customer c (customer cart) = true ->
  check_daily c cart today s = true ->
  (0 < selected_base c cart < discount_value c)%Q ->
  exists d,
    fst (preview_discount c cart today s) = preview_applicable c d /\
    dict_get "applicable" (fst (preview_discount c cart today s))
      = Some (VBool true) /\
    (d == discount_value c)%Q /\
    (selected_base c cart < d)%Q.
Proof.
  intros Ht Hmax Hlim Hv Hs He Hd [Hb0 HbV].
  assert (Efinal : (final_discount c cart s == discount_value c)%Q).
  { unfold final_discount, budget_left, _compute_raw_discount.
    rewrite Hlim, Ht, Hmax. rewrite (quantize_down_fixes _ Hv).
    apply Q.max_r. lra. }
  assert (Hres : fst (preview_discount c cart today s) =
                 preview_applicable c (final_discount c cart s)).
  { rewrite preview_discount_eq. simpl.
    unfold preview_as_specified, ordered_checks, first_failing.
    rewrite Hs, He, Hd.
    replace (check_base c cart) with true
      by (symmetry; now apply Qlt_bool_iff).
    replace (check_budget c s) with true
      by (unfold check_budget, budget_left; now rewrite Hlim).
    replace (check_discount c cart s) with true; [reflexivity|].
    symmetry. apply Qlt_bool_iff. rewrite Efinal. lra. }
  exists (final_discount c cart s). rewrite Hres.
  repeat split; [exact Efinal | rewrite Efinal; exact HbV].
Qed.

Lemma flat_discount_exceeds_base_witness :
  exists d,
    fst (preview_discount flat30 cart_small_delivery 100 empty_ledger)
      = preview_applicable flat30 d /\
    dict_get "applicable"
      (fst (preview_discount flat30 cart_small_delivery 100 empty_ledger))
      = Some (VBool true) /\
    (d == discount_value flat30)%Q /\
    (selected_base flat30 cart_small_delivery < d)%Q.
Proof.
  apply (flat_discount_exceeds_base flat30 cart_small_delivery 100 empty_ledger);
    try reflexivity.
  - exists 3000. reflexivity.
  - split; reflexivity.
Defined.

(** * Rejected redemptions *)

Lemma counters_unchanged_trans (s1 s2 s3 : Ledger) :
  counters_unchanged s1 s2 -> counters_unchanged s2 s3 ->
  counters_unchanged s1 s3.
Proof.
  intros (U12 & B12 & T12 & G12) (U23 & B23 & T23 & G23).
  repeat split; intros.
  - auto.
  - auto.
  - now rewrite T23.
  - now rewrite G23.
Qed.

Lemma race_rejection_keeps_counters
    (c : Campaign) (cart : Cart) (today : date) (s : Ledger) :
  counters_unchanged s
    (snd (get_or_create_usage (usage_key c (customer cart) today) s)).
Proof. apply adds_zero_rows_counters, get_or_create_usage_adds. Qed.

(** C6: a redeem call that ends rejected has mutated no counter.  The
    unlocked preview part of the call changes none; if the preview rejects,
    the call returns that result and stops there; otherwise the rejection
    is the one under the lock, which changes no counter of the ledger it
    found there (also when other transactions committed in between) and
    carries a reason other than the ordinary daily-limit reason.  Without
    such interference no counter differs before and after the call. *)
Theorem rejected_redeem_mutates_no_counter
    (other : Ledger -> Ledger)
    (c : Campaign) (cart : Cart) (today : date) (s : Ledger) (r : Dict) :
  fst (redeem_discount_racing other c cart today s) = Some r ->
  get_applicable r = false ->
  let prev := fst (preview_discount c cart today s) in
  let s1 := snd (preview_discount c cart today s) in
  let s' := snd (redeem_discount_racing other c cart today s) in
  counters_unchanged s s1 /\
  ((r = prev /\ s' = s1) \/
   (get_applicable prev = true /\ r = race_rejected /\
    counters_unchanged (other s1) s')) /\
  (other s1 = s1 -> counters_unchanged s s') /\
  dict_get "reason" race_rejected <>
    dict_get "reason" (preview_rejected c (Some "Daily usage limit reached.")).
Proof.
  intros Hr Hrej prev s1 s'.
  pose proof (preview_keeps_counters c cart today s) as Hprev.
  fold s1 in Hprev.
  assert (Hcases : (r = prev /\ s' = s1) \/
                   (get_applicable prev = true /\ r = race_rejected /\
                    counters_unchanged (other s1) s')).
  { subst prev s1 s'. revert Hr.
    rewrite redeem_discount_racing_eq, preview_discount_eq. simpl.
    destruct (get_applicable (preview_as_specified c cart today s)) eqn:E.
    - rewrite redeem_locked_eq.
      destruct (_ <=? _); simpl.
      + intros [= <-]. right. repeat split; try reflexivity;
          apply race_rejection_keeps_counters.
      + intros [= <-]. discriminate.
    - simpl. intros [= <-]. left. auto. }
  split; [exact Hprev | split; [exact Hcases | split]].
  - intros Hid. destruct Hcases as [[_ ->] | (_ & _ & Hc)].
    + exact Hprev.
    + rewrite Hid in Hc. eapply counters_unchanged_trans; eassumption.
  - discriminate.
Qed.

Lemma rejected_redeem_mutates_no_counter_witness :
  let other := concurrent_redeem test10 cart500 100 in
  let s1 := snd (preview_discount test10 cart500 100 empty_ledger) in
  let s' := snd (redeem_discount_racing other test10 cart500 100 empty_ledger) in
  counters_unchanged empty_ledger s1 /\
  ((race_rejected = fst (preview_discount test10 cart500 100 empty_ledger) /\
    s' = s1) \/
   (get_applicable (fst (preview_discount test10 cart500 100 empty_ledger))
      = true /\
    race_rejected = race_rejected /\
    counters_unchanged (other s1) s')) /\
  (other s1 = s1 -> counters_unchanged empty_ledger s') /\
  dict_get "reason" race_rejected <>
    dict_get "reason"
      (preview_rejected test10 (Some "Daily usage limit reached.")).
Proof.
  apply (rejected_redeem_mutates_no_counter
           (concurrent_redeem test10 cart500 100)
           test10 cart500 100 empty_ledger race_rejected).
  - vm_compute. reflexivity.
  - reflexivity.
Defined.

(** C9: the rejection under the lock is the only result without the
    [discount_amount] and [applies_to] fields: it holds the [applicable]
    flag and the [reason] and nothing else, while every result of preview
    and every other result of redeem has both fields. *)
Theorem race_rejection_omits_fields
    (other : Ledger -> Ledger)
    (c : Campaign) (cart : Cart) (today : date) (s : Ledger) :
  let prev := fst (preview_discount c cart today s) in
  let s1 := snd (preview_discount c cart today s) in
  let rejected_under_lock :=
    get_applicable prev &&
    (max_txn_per_customer_per_day c
     <=? txn_count (other s1) (usage_key c (customer cart) today)) in
  (has_key "discount_amount" prev = true /\ has_key "applies_to" prev = true) /\
  exists r,
    fst (redeem_discount_racing other c cart today s) = Some r /\
    if rejected_under_lock then
      r = race_rejected /\
      keys r = ["applicable"; "reason"] /\
      has_key "discount_amount" r = false /\ has_key "applies_to" r = false
    else
      has_key "discount_amount" r = true /\ has_key "applies_to" r = true.
Proof.
  simpl. rewrite redeem_discount_racing_eq, preview_discount_eq. simpl.
  assert (Hprev : has_key "discount_amount" (preview_as_specified c cart today s)
                  = true /\
                  has_key "applies_to" (preview_as_specified c cart today s)
                  = true).
  { unfold preview_as_specified.
    destruct (first_failing _); split; reflexivity. }
  split; [exact Hprev|].
  destruct (get_applicable _); simpl.
  - rewrite redeem_locked_eq.
    destruct (_ <=? _); eexists; split; try reflexivity.
    + repeat split.
    + split; reflexivity.
  - eexists. split; [reflexivity | exact Hprev].
Qed.

(** The rejection under the lock does happen when a concurrent redemption
    takes the last slot of the day between the preview and the lock. *)
Example race_rejection_reached :
  fst (redeem_discount_racing (concurrent_redeem test10 cart500 100)
         test10 cart500 100 empty_ledger) = Some race_rejected.
Proof. vm_compute. reflexivity. Qed.

(** * Counters after a call *)

Section CountersAfterCall.

Variable c : Campaign.
Variable cart : Cart.
Variable today : date.

Lemma preview_result_eq (s : Ledger) :
  fst (preview_discount c cart today s) = preview_as_specified c cart today s.
Proof. now rewrite preview_discount_eq. Qed.

Lemma ledger_after_preview_counters (s : Ledger) :
  counters_unchanged s (ledger_after_preview c cart today s).
Proof.
  pose proof (preview_keeps_counters c cart today s) as H.
  now rewrite preview_discount_eq in H.
Qed.

Lemma redeem_never_raises (s : Ledger) :
  exists r, fst (redeem_discount c cart today s) = Some r.
Proof.
  rewrite redeem_discount_eq. simpl.
  destruct (get_applicable _); eexists; reflexivity.
Qed.

Lemma redeem_txn_count (s : Ledger) (k : Z * Z * Z) :
  txn_count (snd (redeem_discount c cart today s)) k =
    if get_applicable (preview_as_specified c cart today s)
       && bool_decide (k = usage_key c (customer cart) today)
    then txn_count s k + 1
    else txn_count s k.
Proof.
  rewrite redeem_discount_eq. simpl.
  destruct (ledger_after_preview_counters s) as (_ & _ & Ht & _).
  destruct (get_applicable _); simpl; [|apply Ht].
  unfold ledger_after_commit, txn_count at 1. simpl.
  case_bool_decide as Hk.
  - subst k. rewrite lookup_insert_eq. simpl. now rewrite Ht.
  - rewrite lookup_insert_ne by congruence. apply Ht.
Qed.

Lemma redeem_total_discount_given (s : Ledger) (cid : Z) :
  total_discount_given (snd (redeem_discount c cart today s)) cid =
    if get_applicable (preview_as_specified c cart today s)
       && budget_capped c && bool_decide (cid = campaign_id c)
    then (total_discount_given s cid + final_discount c cart s)%Q
    else total_discount_given s cid.
Proof.
  rewrite redeem_discount_eq. simpl.
  destruct (ledger_after_preview_counters s) as (_ & _ & _ & Hg).
  destruct (get_applicable _); simpl; [|apply Hg].
  unfold ledger_after_commit, total_discount_given at 1. simpl.
  destruct (budget_capped c); simpl; [|apply Hg].
  case_bool_decide as Hk.
  - subst cid. rewrite lookup_insert_eq. simpl. now rewrite Hg.
  - rewrite lookup_insert_ne by congruence. apply Hg.
Qed.

(** The budget-clamped discount fits the remaining budget. *)
Lemma final_discount_fits (s : Ledger) (lim : Decimal) :
  total_budget_limit c = Some lim -> budget_capped c = true ->
  (total_discount_given s (campaign_id c) + final_discount c cart s <= lim)%Q.
Proof.
  intros Hlim Hcap. unfold final_discount, budget_left.
  rewrite Hlim, Hcap.
  pose proof (Q.le_min_r (_compute_raw_discount c (selected_base c cart))
                (lim - total_discount_given s (campaign_id c))).
  lra.
Qed.

End CountersAfterCall.

Lemma same_definition_cons (c : Campaign) (op : Call) (ops : list Call) :
  same_definition c (op :: ops) ->
  (campaign_id (call_campaign op) = campaign_id c -> call_campaign op = c) /\
  same_definition c ops.
Proof. intros H. inversion H; subst. auto. Qed.

(** One call keeps the usage counter of [(c, user, day)] within the daily
    maximum of [c]. *)
Lemma run_call_daily_cap (c : Campaign) (op : Call) (s : Ledger) (user : Z)
    (day : date) :
  (campaign_id (call_campaign op) = campaign_id c -> call_campaign op = c) ->
  txn_count s (campaign_id c, user, day) <= max_txn_per_customer_per_day c ->
  txn_count (run_call s op) (campaign_id c, user, day)
    <= max_txn_per_customer_per_day c.
Proof.
  intros Hdef Hinv. destruct op as [c' cart today | c' cart today]; simpl in *.
  - destruct (preview_keeps_counters c' cart today s) as (_ & _ & Ht & _).
    now rewrite Ht.
  - rewrite redeem_txn_count.
    destruct (get_applicable _) eqn:Ea; simpl; [|exact Hinv].
    case_bool_decide as Hk; [|exact Hinv].
    unfold usage_key in Hk. injection Hk as Hid Hu Hd.
    symmetry in Hid. specialize (Hdef Hid). subst c'.
    destruct (preview_applicable_inv c cart today s Ea) as [_ Hnone].
    apply first_failing_none_checks in Hnone as (_ & _ & Hdaily & _).
    apply check_daily_below_max in Hdaily.
    unfold usage_key in Hdaily. rewrite <- Hu, <- Hd in Hdaily. lia.
Qed.

(** One call keeps the budget counter of [c] within its limit. *)
Lemma run_call_budget (c : Campaign) (lim : Decimal) (op : Call) (s : Ledger) :
  total_budget_limit c = Some lim ->
  (campaign_id (call_campaign op) = campaign_id c -> call_campaign op = c) ->
  (total_discount_given s (campaign_id c) <= lim)%Q ->
  (total_discount_given (run_call s op) (campaign_id c) <= lim)%Q.
Proof.
  intros Hlim Hdef Hinv.
  destruct op as [c' cart today | c' cart today]; simpl in *.
  - destruct (preview_keeps_counters c' cart today s) as (_ & _ & _ & Hg).
    now rewrite Hg.
  - rewrite redeem_total_discount_given.
    destruct (get_applicable _); simpl; [|exact Hinv].
    destruct (budget_capped c') eqn:Hcap; simpl; [|exact Hinv].
    case_bool_decide as Hk; [|exact Hinv].
    symmetry in Hk. specialize (Hdef Hk). subst c'.
    now apply final_discount_fits.
Qed.

Lemma run_calls_daily_cap (c : Campaign) (ops : list Call) (user : Z)
    (day : date) :
  same_definition c ops ->
  forall s,
    txn_count s (campaign_id c, user, day) <= max_txn_per_customer_per_day c ->
    txn_count (run_calls ops s) (campaign_id c, user, day)
      <= max_txn_per_customer_per_day c.
Proof.
  induction ops as [|op ops IH]; intros Hdef s Hinv; [exact Hinv|].
  apply same_definition_cons in Hdef as [Hop Hrest]. simpl.
  apply IH; [exact Hrest|]. now apply run_call_daily_cap.
Qed.

Lemma run_calls_budget (c : Campaign) (lim : Decimal) (ops : list Call) :
  total_budget_limit c = Some lim ->
  same_definition c ops ->
  forall s,
    (total_discount_given s (campaign_id c) <= lim)%Q ->
    (total_discount_given (run_calls ops s) (campaign_id c) <= lim)%Q.
Proof.
  intros Hlim. induction ops as [|op ops IH]; intros Hdef s Hinv; [exact Hinv|].
  apply same_definition_cons in Hdef as [Hop Hrest]. simpl.
  apply IH; [exact Hrest|]. now apply (run_call_budget c lim).
Qed.

(** * The two ledger invariants *)

(** C2: for a campaign with daily maximum [N], the usage counter of any
    (campaign, customer, date) stays at most [N] through every sequence of
    calls that starts with it at most [N] (as in the empty ledger).  Redeem
    always returns a result; a redeem that finds the counter at [N] or above
    is rejected, a rejected redeem leaves the counter as it was, and a
    successful one adds exactly 1.  The same holds for the re-check under
    the lock, on whatever ledger it finds there. *)
Theorem daily_cap_invariant
    (c : Campaign) (ops : list Call) (s0 : Ledger) (user : Z) (day : date) :
  let N := max_txn_per_customer_per_day c in
  same_definition c ops ->
  txn_count s0 (campaign_id c, user, day) <= N ->
  txn_count (run_calls ops s0) (campaign_id c, user, day) <= N /\
  (forall cart today s,
     let k := usage_key c (customer cart) today in
     let s' := snd (redeem_discount c cart today s) in
     exists r,
       fst (redeem_discount c cart today s) = Some r /\
       (N <= txn_count s k -> get_applicable r = false) /\
       (get_applicable r = false -> txn_count s' k = txn_count s k) /\
       (get_applicable r = true -> txn_count s' k = txn_count s k + 1)) /\
  (forall cart today disc s,
     let k := usage_key c (customer cart) today in
     let r := fst (redeem_locked c cart today disc s) in
     let s' := snd (redeem_locked c cart today disc s) in
     (N <= txn_count s k ->
      get_applicable r = false /\ txn_count s' k = txn_count s k) /\
     (txn_count s k < N ->
      get_applicable r = true /\ txn_count s' k = txn_count s k + 1)).
Proof.
  intros N Hdef Hinv. split; [|split].
  - now apply run_calls_daily_cap.
  - intros cart today s k s'.
    pose proof (redeem_txn_count c cart today s k) as Hcount. fold s' in Hcount.
    rewrite bool_decide_eq_true_2 in Hcount by reflexivity.
    rewrite andb_true_r in Hcount.
    revert Hcount. subst s'. rewrite redeem_discount_eq. simpl.
    destruct (get_applicable (preview_as_specified c cart today s)) eqn:Ea;
      simpl; intros Hcount; eexists; (split; [reflexivity|]).
    + split; [|split].
      * intros Hfull.
        destruct (preview_applicable_inv c cart today s Ea) as [_ Hnone].
        apply first_failing_none_checks in Hnone as (_ & _ & Hd & _).
        apply check_daily_below_max in Hd. fold k N in Hd. lia.
      * discriminate.
      * intros _. exact Hcount.
    + split; [|split].
      * intros _. exact Ea.
      * intros _. exact Hcount.
      * rewrite Ea. discriminate.
  - intros cart today disc s k r s'. subst r s'.
    rewrite redeem_locked_eq. fold k N.
    destruct (Z.leb_spec N (txn_count s k)) as [Hfull | Hfree]; simpl.
    + split; [|lia]. intros _. split; [reflexivity|].
      now destruct (race_rejection_keeps_counters c cart today s)
        as (_ & _ & Ht & _).
    + split; [lia|]. intros _. split; [reflexivity|].
      unfold txn_count at 1. simpl. fold k. now rewrite lookup_insert_eq.
Qed.

Lemma daily_cap_invariant_witness :
  txn_count
    (run_calls [RedeemCall test10 cart500 100; RedeemCall test10 cart500 100;
                PreviewCall test10 cart500 100; RedeemCall flat30 cart500 100]
       empty_ledger)
    (campaign_id test10, 7, 100) <= 1.
Proof.
  apply (daily_cap_invariant test10
           [RedeemCall test10 cart500 100; RedeemCall test10 cart500 100;
            PreviewCall test10 cart500 100; RedeemCall flat30 cart500 100]
           empty_ledger 7 100).
  - repeat constructor; simpl; intros; try reflexivity; discriminate.
  - vm_compute. discriminate.
Defined.

(** C1, as stated, fails in two ways.  With [total_budget_limit] set to
    0.00 a redeem commits a discount of 50.00 and adds nothing to
    [total_discount_given]: it does not add the previewed discount.  And
    when a redemption of another customer commits between the preview of a
    call and its lock, the call still adds the amount it previewed: against
    a limit of 40.00 the total ends at 80.00. *)
Lemma budget_limit_counterexample :
  (total_budget_limit zero_budget = Some 0%Q /\
   exists r,
     fst (redeem_discount zero_budget cart500 100 empty_ledger) = Some r /\
     get_applicable r = true /\
     (get_discount r == 50)%Q /\
     ~ (total_discount_given
          (snd (redeem_discount zero_budget cart500 100 empty_ledger))
          (campaign_id zero_budget)
        == total_discount_given empty_ledger (campaign_id zero_budget)
           + get_discount r)%Q) /\
  (total_budget_limit budget40 = Some 40%Q /\
   ~ (total_discount_given
        (snd (redeem_discount_racing
                (concurrent_redeem budget40 other_cart500 100)
                budget40 cart500 100 empty_ledger))
        (campaign_id budget40) <= 40)%Q).
Proof.
  split.
  - split; [reflexivity|]. eexists. split; [vm_compute; reflexivity|].
    split; [reflexivity | split; [vm_compute; reflexivity|]].
    intros H. vm_compute in H. discriminate.
  - split; [reflexivity|]. intros H. vm_compute in H. apply H. reflexivity.
Qed.

(** C1 (amended): for a campaign with a budget limit, through every
    sequence of preview and redeem calls that run one after another and
    start within the limit (as in the empty ledger), [total_discount_given]
    is at most [total_budget_limit] after every committed redeem.  When the
    limit is not zero, redeem adds exactly the discount that its preview
    returned, which was clamped to the budget remaining before the call; a
    limit of 0.00 is no cap, and nothing is added.  (What happens when
    calls interleave is left open here.) *)
Theorem budget_invariant
    (c : Campaign) (lim : Decimal) (ops : list Call) (s0 : Ledger)
    (cart : Cart) (today : date) (r : Dict) :
  total_budget_limit c = Some lim ->
  same_definition c ops ->
  (total_discount_given s0 (campaign_id c) <= lim)%Q ->
  let s := run_calls ops s0 in
  let s' := snd (redeem_discount c cart today s) in
  fst (redeem_discount c cart today s) = Some r ->
  get_applicable r = true ->
  (total_discount_given s' (campaign_id c) <= lim)%Q /\
  (budget_capped c = true ->
   exists d,
     dict_get "discount_amount" (fst (preview_discount c cart today s))
       = Some (VDec d) /\
     dict_get "discount_amount" r = Some (VDec d) /\
     (d <= lim - total_discount_given s (campaign_id c))%Q /\
     total_discount_given s' (campaign_id c)
       = (total_discount_given s (campaign_id c) + d)%Q).
Proof.
  intros Hlim Hdef Hinv s s' Hr Happ.
  pose proof (run_calls_budget c lim ops Hlim Hdef s0 Hinv) as Hs. fold s in Hs.
  split.
  - apply (run_call_budget c lim (RedeemCall c cart today) s Hlim); auto.
  - intros Hcap.
    pose proof (redeem_total_discount_given c cart today s (campaign_id c))
      as Htotal.
    fold s' in Htotal. revert Hr Htotal.
    rewrite redeem_discount_eq, preview_result_eq. simpl.
    destruct (get_applicable (preview_as_specified c cart today s)) eqn:Ea;
      simpl.
    + intros [= <-]. rewrite Hcap, bool_decide_eq_true_2 by reflexivity.
      simpl. intros Htotal.
      destruct (preview_applicable_inv c cart today s Ea) as [-> _].
      exists (final_discount c cart s).
      repeat split; try assumption.
      pose proof (final_discount_fits c cart s lim Hlim Hcap). lra.
    + intros [= <-]. congruence.
Qed.

Lemma budget_invariant_witness :
  let s := run_calls [PreviewCall budget40 cart500 100] empty_ledger in
  let s' := snd (redeem_discount budget40 cart500 100 s) in
  (total_discount_given s' (campaign_id budget40) <= 40)%Q /\
  (budget_capped budget40 = true ->
   exists d,
     dict_get "discount_amount" (fst (preview_discount budget40 cart500 100 s))
       = Some (VDec d) /\
     dict_get "discount_amount" (redeem_committed budget40 40) = Some (VDec d) /\
     (d <= 40 - total_discount_given s (campaign_id budget40))%Q /\
     total_discount_given s' (campaign_id budget40)
       = (total_discount_given s (campaign_id budget40) + d)%Q).
Proof.
  apply (budget_invariant budget40 40 [PreviewCall budget40 cart500 100]
           empty_ledger cart500 100 (redeem_committed budget40 40)).
  - reflexivity.
  - repeat constructor.
  - vm_compute. discriminate.
  - vm_compute. reflexivity.
  - reflexivity.
Defined.

(** Scenario C: the clamped redemption uses the budget up, and the next
    preview is rejected for the budget. *)
Example budget_cap_stops_campaign :
  let s := snd (redeem_discount budget40 cart500 100 empty_ledger) in
  total_discount_given s (campaign_id budget40) = 40%Q /\
  dict_get "reason" (fst (preview_discount budget40 cart500 100 s))
    = Some (VStr "Budget exhausted.").
Proof. vm_compute. split; reflexivity. Qed.

(** The invariant is one of call sequences.  The amount added under the
    lock is the one previewed before it, so a redemption of another customer
    that commits in between is not taken into account. *)
Example budget_exceeded_when_racing :
  let s' := snd (redeem_discount_racing
                   (concurrent_redeem budget40 other_cart500 100)
                   budget40 cart500 100 empty_ledger) in
  (total_discount_given s' (campaign_id budget40) == 80)%Q.
Proof. vm_compute. reflexivity. Qed.

(** * Further properties of the schedule *)

(** X1: a campaign passes the schedule check of preview exactly when it is
    active and today lies between [start_date] and [end_date] and, under a
    non-zero run-days limit [L], not after [start_date + (L - 1)]. *)
Theorem schedule_check_interval (c : Campaign) (today : date) :
  check_schedule c today = true <->
    is_active c = true /\
    start_date c <= today <= end_date c /\
    (forall l, run_days_limit c = Some l -> l <> 0 ->
               today <= start_date c + (l - 1)).
Proof.
  unfold check_schedule, is_within_date_window.
  rewrite !andb_true_iff, negb_true_iff, Z.leb_le, Z.leb_le.
  split.
  - intros [[Ha [Hs He]] Hx]. repeat split; try assumption.
    intros l El Hl. rewrite (days_exhausted_limited c today l El Hl) in Hx.
    apply Z.ltb_ge in Hx. exact Hx.
  - intros (Ha & [Hs He] & Hl). repeat split; try assumption.
    destruct (run_days_limit c) as [l|] eqn:El.
    + destruct (Z.eq_dec l 0) as [-> | Hne].
      * apply days_exhausted_unlimited. auto.
      * rewrite (days_exhausted_limited c today l El Hne).
        apply Z.ltb_ge. now apply Hl.
    + apply days_exhausted_unlimited. auto.
Qed.

Lemma schedule_check_interval_witness :
  check_schedule test10 103 = true.
Proof.
  apply (proj2 (schedule_check_interval test10 103)).
  repeat split; try (simpl; lia).
  intros l [= <-] _. simpl. lia.
Defined.

(** X2: under a positive run-days limit [L] the remaining days count today
    as already used: within the date window they are 0 from the day
    [start_date + (L - 1)] on.  On that day itself the campaign is not yet
    day-exhausted and (when active) still passes the schedule check, so a
    campaign showing 0 days left can still be redeemed. *)
Theorem days_left_zero_on_last_run_day (c : Campaign) (today l : date) :
  run_days_limit c = Some l ->
  0 < l ->
  start_date c <= today <= end_date c ->
  (days_left c today = 0 <-> start_date c + (l - 1) <= today) /\
  (days_exhausted c today = true <-> start_date c + (l - 1) < today) /\
  (today = start_date c + (l - 1) ->
   days_left c today = 0 /\ check_schedule c today = is_active c).
Proof.
  intros El Hl [Hs He].
  assert (Hne : l <> 0) by lia.
  assert (Hleft : days_left c today = 0 <-> start_date c + (l - 1) <= today).
  { unfold days_left, truthy_int. rewrite El.
    destruct (Z.ltb_spec (end_date c) today); [lia|].
    destruct (Z.eqb_spec l 0); simpl; lia. }
  assert (Hex : days_exhausted c today = true
                <-> start_date c + (l - 1) < today).
  { rewrite (days_exhausted_limited c today l El Hne). apply Z.ltb_lt. }
  split; [exact Hleft | split; [exact Hex|]].
  intros Hlast. split; [apply Hleft; lia|].
  unfold check_schedule, is_within_date_window.
  rewrite (days_exhausted_limited c today l El Hne).
  destruct (Z.leb_spec (start_date c) today); [|lia].
  destruct (Z.leb_spec today (end_date c)); [|lia].
  destruct (Z.ltb_spec (start_date c + (l - 1)) today); [lia|].
  simpl. now rewrite !andb_true_r.
Qed.

Lemma days_left_zero_on_last_run_day_witness :
  days_left test10 103 = 0 /\ check_schedule test10 103 = is_active test10.
Proof.
  apply (days_left_zero_on_last_run_day test10 103 5);
    try reflexivity; simpl; lia.
Defined.

(** * Further properties of the raw discount *)

Section RawDiscount.

Local Open Scope Q_scope.

Lemma quantize_down_nonneg (x : Q) : 0 <= x -> 0 <= quantize_down x.
Proof. intros H. now destruct (quantize_down_bounds x H). Qed.

Lemma quantize_down_le (x : Q) : 0 <= x -> quantize_down x <= x.
Proof. intros H. now destruct (quantize_down_bounds x H) as (_ & ? & _). Qed.

Lemma two_places_zero : two_places 0.
Proof. exists 0%Z. reflexivity. Qed.

Lemma two_places_comp (x y : Q) : x == y -> two_places x -> two_places y.
Proof. intros E [k Hk]. exists k. now rewrite <- E. Qed.

Lemma two_places_plus (x y : Q) :
  two_places x -> two_places y -> two_places (x + y).
Proof.
  intros [k Hk] [j Hj]. exists (k + j)%Z.
  rewrite Hk, Hj, inject_Z_plus. field.
Qed.

Lemma two_places_minus (x y : Q) :
  two_places x -> two_places y -> two_places (x - y).
Proof.
  intros [k Hk] [j Hj]. exists (k - j)%Z.
  unfold Z.sub. rewrite Hk, Hj, inject_Z_plus, inject_Z_opp. field.
Qed.

Lemma two_places_Qmin (x y : Q) :
  two_places x -> two_places y -> two_places (Qmin x y).
Proof.
  intros Hx Hy. destruct (Q.min_dec x y) as [E|E];
    [apply (two_places_comp x) | apply (two_places_comp y)];
    auto; now symmetry.
Qed.

Lemma two_places_Qmax (x y : Q) :
  two_places x -> two_places y -> two_places (Qmax x y).
Proof.
  intros Hx Hy. destruct (Q.max_dec x y) as [E|E];
    [apply (two_places_comp x) | apply (two_places_comp y)];
    auto; now symmetry.
Qed.

Lemma truthy_dec_false (m : Q) : truthy_dec m = false -> m == 0.
Proof.
  unfold truthy_dec. rewrite negb_false_iff. apply Qeq_bool_eq.
Qed.

Lemma truthy_dec_true (m : Q) : truthy_dec m = true -> ~ m == 0.
Proof.
  unfold truthy_dec. rewrite negb_true_iff. apply Qeq_bool_neq.
Qed.

End RawDiscount.

(** X3: whatever the campaign and the amount, the raw discount is a
    non-negative two-place amount, and a per-redemption cap that is set and
    not zero bounds it (by the cap, or by zero for a negative cap). *)
Theorem raw_discount_range (c : Campaign) (amount : Decimal) :
  (0 <= _compute_raw_discount c amount)%Q /\
  two_places (_compute_raw_discount c amount) /\
  (forall m, max_discount_amount c = Some m -> ~ (m == 0)%Q ->
             (_compute_raw_discount c amount <= Qmax 0 m)%Q).
Proof.
  unfold _compute_raw_discount. split; [apply Q.le_max_l | split].
  - apply two_places_Qmax;
      [apply two_places_zero | apply quantize_down_two_places].
  - intros m Em Hm. rewrite Em.
    assert (Ht : truthy_dec m = true).
    { unfold truthy_dec. rewrite negb_true_iff.
      destruct (Qeq_bool m 0) eqn:E; [|reflexivity].
      apply Qeq_bool_eq in E. contradiction. }
    rewrite Ht.
    set (d := match discount_type c with
              | PERCENT =>
                  context_round
                    (context_round (Qmax 0 amount * discount_value c) / 100)%Q
              | FLAT => discount_value c
              end).
    pose proof (Q.le_max_l 0 m) as H0. pose proof (Q.le_max_r 0 m) as Hm'.
    apply Q.max_lub; [exact H0|].
    destruct (Qlt_le_dec (Qmin d m) 0) as [Hneg | Hpos].
    + destruct (quantize_down_neg (Qmin d m) ltac:(lra)) as [_ Hq]. lra.
    + pose proof (quantize_down_le (Qmin d m) Hpos).
      pose proof (Q.le_min_r d m). lra.
Qed.

Lemma raw_discount_range_witness :
  (_compute_raw_discount test10 5000 <= Qmax 0 200)%Q.
Proof.
  apply (proj2 (proj2 (raw_discount_range test10 5000)) 200%Q).
  - reflexivity.
  - intros H. vm_compute in H. discriminate.
Defined.

(** X4: a PERCENT discount of at most 100 percent never exceeds the
    (non-negative part of the) amount it is computed on, as long as the
    product of amount and percentage can be written with at most 28 digits;
    beyond that the product is rounded first and the discount can exceed
    the amount. *)
Theorem percent_discount_within_amount (c : Campaign) (amount : Decimal) :
  discount_type c = PERCENT ->
  (0 <= discount_value c <= 100)%Q ->
  fits_context (Qmax 0 amount * discount_value c) ->
  (_compute_raw_discount c amount <= Qmax 0 amount)%Q.
Proof.
  intros Ht [HV0 HV100] Hfit. unfold _compute_raw_discount. rewrite Ht.
  pose proof (percent_exact _ _ Hfit) as Ep.
  set (a := Qmax 0 amount) in *.
  assert (Ha : (0 <= a)%Q) by apply Q.le_max_l.
  assert (Hd0' : (0 <= a * discount_value c / 100)%Q).
  { apply Qle_shift_div_l; [lra|]. rewrite Qmult_0_l.
    now apply Qmult_le_0_compat. }
  assert (Hda' : (a * discount_value c / 100 <= a)%Q).
  { apply Qle_shift_div_r; [lra|].
    nra. }
  set (d := context_round (context_round (a * discount_value c) / 100)) in *.
  assert (Hd0 : (0 <= d)%Q) by lra.
  assert (Hda : (d <= a)%Q) by lra.
  apply Q.max_lub; [exact Ha|].
  destruct (max_discount_amount c) as [m|].
  - destruct (truthy_dec m).
    + pose proof (Q.le_min_l d m) as Hmin.
      destruct (Qlt_le_dec (Qmin d m) 0) as [Hneg | Hpos].
      * assert (Hn : (Qmin d m <= 0)%Q) by lra.
        destruct (quantize_down_neg (Qmin d m) Hn) as [_ Hq]. lra.
      * pose proof (quantize_down_le (Qmin d m) Hpos). lra.
    + pose proof (quantize_down_le d Hd0). lra.
  - pose proof (quantize_down_le d Hd0). lra.
Qed.

Lemma percent_discount_within_amount_witness :
  (_compute_raw_discount test10 500 <= Qmax 0 500)%Q.
Proof.
  apply (percent_discount_within_amount test10 500).
  - reflexivity.
  - split; vm_compute; discriminate.
  - exists 5000, 0. split; reflexivity.
Defined.

(** All of 0.00999...9 (31 digits) is less than the 0.01 that 100 percent of
    it comes out as. *)
Example percent_discount_above_long_amount :
  (_compute_raw_discount
     {| campaign_id := 8; applies_to := CART; discount_type := PERCENT;
        discount_value := 100%Q; max_discount_amount := None;
        allow_all_customers := true; specific_customers := [];
        start_date := 99; end_date := 105; run_days_limit := None;
        total_budget_limit := None; max_txn_per_customer_per_day := 3;
        is_active := true |}
     (long_base / 10) == 1 # 100)%Q /\
  (long_base / 10 < 1 # 100)%Q.
Proof. split; vm_compute; reflexivity. Qed.

(** X5: with a non-negative discount value the raw discount never goes
    down when the amount goes up (for FLAT it does not depend on the
    amount at all). *)
Theorem raw_discount_monotone (c : Campaign) (a1 a2 : Decimal) :
  (0 <= discount_value c)%Q ->
  (a1 <= a2)%Q ->
  (_compute_raw_discount c a1 <= _compute_raw_discount c a2)%Q /\
  (discount_type c = FLAT ->
   _compute_raw_discount c a1 = _compute_raw_discount c a2).
Proof.
  intros HV Hle. unfold _compute_raw_discount. split.
  - apply Q.max_le_compat_l. apply quantize_down_mono.
    assert (Hd : (match discount_type c with
                  | PERCENT =>
                      context_round
                        (context_round (Qmax 0 a1 * discount_value c) / 100)
                  | FLAT => discount_value c
                  end <=
                  match discount_type c with
                  | PERCENT =>
                      context_round
                        (context_round (Qmax 0 a2 * discount_value c) / 100)
                  | FLAT => discount_value c
                  end)%Q).
    { destruct (discount_type c); [|lra].
      pose proof (Q.max_le_compat_l a1 a2 0 Hle) as Hm.
      pose proof (Q.le_max_l 0 a1) as H1.
      assert (Hp0 : (0 <= Qmax 0 a1 * discount_value c)%Q)
        by (now apply Qmult_le_0_compat).
      assert (Hp : (Qmax 0 a1 * discount_value c
                    <= Qmax 0 a2 * discount_value c)%Q)
        by (now apply Qmult_le_compat_r).
      pose proof (context_round_nonneg _ Hp0) as Hr0.
      pose proof (context_round_mono _ _ Hp0 Hp) as Hr.
      apply context_round_mono.
      - apply Qle_shift_div_l; [lra|]. lra.
      - apply Qmult_le_compat_r; [exact Hr|].
        apply Qinv_le_0_compat. lra. }
    destruct (max_discount_amount c) as [m|]; [|exact Hd].
    destruct (truthy_dec m); [|exact Hd].
    now apply Q.min_le_compat_r.
  - intros ->. reflexivity.
Qed.

Lemma raw_discount_monotone_witness :
  (_compute_raw_discount test10 100 <= _compute_raw_discount test10 500)%Q.
Proof.
  apply (raw_discount_monotone test10 100 500); vm_compute; discriminate.
Defined.

(** * Further properties of preview *)

(** Preview reads the ledger through two counters only. *)
Lemma preview_as_specified_reads
    (c : Campaign) (cart : Cart) (today : date) (s s' : Ledger) :
  txn_count s' (usage_key c (customer cart) today)
    = txn_count s (usage_key c (customer cart) today) ->
  total_discount_given s' (campaign_id c)
    = total_discount_given s (campaign_id c) ->
  preview_as_specified c cart today s' = preview_as_specified c cart today s /\
  final_discount c cart s' = final_discount c cart s /\
  check_daily c cart today s' = check_daily c cart today s.
Proof.
  intros Ht Hg.
  unfold preview_as_specified, ordered_checks, check_daily, remaining_today,
    check_budget, check_discount, final_discount, budget_left.
  rewrite Ht, Hg. auto.
Qed.

Lemma get_or_create_usage_present (k : Z * Z * Z) (s : Ledger) :
  is_Some (usages s !! k) -> snd (get_or_create_usage k s) = s.
Proof.
  intros [n E]. unfold get_or_create_usage. now rewrite E.
Qed.

Lemma get_or_create_budget_present (cid : Z) (s : Ledger) :
  is_Some (budgets s !! cid) -> snd (get_or_create_budget cid s) = s.
Proof.
  intros [n E]. unfold get_or_create_budget. now rewrite E.
Qed.

Lemma get_or_create_usage_creates (k : Z * Z * Z) (s : Ledger) :
  is_Some (usages (snd (get_or_create_usage k s)) !! k).
Proof.
  unfold get_or_create_usage. destruct (usages s !! k) eqn:E; simpl.
  - rewrite E. eauto.
  - rewrite lookup_insert_eq. eauto.
Qed.

Lemma get_or_create_budget_creates (cid : Z) (s : Ledger) :
  is_Some (budgets (snd (get_or_create_budget cid s)) !! cid).
Proof.
  unfold get_or_create_budget. destruct (budgets s !! cid) eqn:E; simpl.
  - rewrite E. eauto.
  - rewrite lookup_insert_eq. eauto.
Qed.

Lemma get_or_create_budget_usages (cid : Z) (s : Ledger) :
  usages (snd (get_or_create_budget cid s)) = usages s.
Proof.
  unfold get_or_create_budget. destruct (budgets s !! cid); reflexivity.
Qed.

Lemma ledger_after_preview_idempotent
    (c : Campaign) (cart : Cart) (today : date) (s : Ledger) :
  ledger_after_preview c cart today (ledger_after_preview c cart today s)
    = ledger_after_preview c cart today s.
Proof.
  destruct (ledger_after_preview_counters c cart today s) as (_ & _ & Ht & Hg).
  destruct (preview_as_specified_reads c cart today s
              (ledger_after_preview c cart today s)
              (Ht _) (Hg _)) as (_ & _ & Hd).
  unfold ledger_after_preview at 1. rewrite Hd.
  unfold ledger_after_preview.
  destruct (check_schedule c today && _eligible_customer c (customer cart));
    [|reflexivity].
  set (key := usage_key c (customer cart) today).
  destruct (check_daily c cart today s && check_base c cart && budget_capped c).
  - rewrite (get_or_create_usage_present key).
    + apply get_or_create_budget_present, get_or_create_budget_creates.
    + rewrite get_or_create_budget_usages. apply get_or_create_usage_creates.
  - apply get_or_create_usage_present, get_or_create_usage_creates.
Qed.

(** X6: a preview repeated on the ledger the first one left returns the
    same result and changes nothing any more: the rows a preview creates are
    created once. *)
Theorem preview_idempotent
    (c : Campaign) (cart : Cart) (today : date) (s : Ledger) :
  preview_discount c cart today (snd (preview_discount c cart today s))
    = preview_discount c cart today s.
Proof.
  rewrite !preview_discount_eq. simpl.
  rewrite ledger_after_preview_idempotent.
  destruct (ledger_after_preview_counters c cart today s) as (_ & _ & Ht & Hg).
  destruct (preview_as_specified_reads c cart today s
              (ledger_after_preview c cart today s)
              (Ht _) (Hg _)) as (-> & _ & _).
  reflexivity.
Qed.

Lemma first_failing_reason (c : Campaign) (cart : Cart) (today : date)
    (s : Ledger) (reason : string) :
  first_failing (ordered_checks c cart today s) = Some reason ->
  In reason [ "Inactive or outside schedule."; "Customer not targeted.";
              "Daily usage limit reached."; "Nothing to discount.";
              "Budget exhausted."; "Not applicable." ].
Proof.
  unfold ordered_checks, first_failing.
  destruct (check_schedule _ _); [|intros [= <-]; simpl; auto].
  destruct (_eligible_customer _ _); [|intros [= <-]; simpl; auto].
  destruct (check_daily _ _ _ _); [|intros [= <-]; simpl; auto].
  destruct (check_base _ _); [|intros [= <-]; simpl; auto 10].
  destruct (check_budget _ _); [|intros [= <-]; simpl; auto 10].
  destruct (check_discount _ _ _); [discriminate|intros [= <-]; simpl; auto 10].
Qed.

(** X7: the two shapes of a preview result.  An applicable one has no
    reason and a discount that is positive, at most the raw discount and,
    when a budget cap is in force, at most the budget remaining; a rejected
    one has a zero discount and one of the six reasons. *)
Theorem preview_result_shape
    (c : Campaign) (cart : Cart) (today : date) (s : Ledger) :
  let p := fst (preview_discount c cart today s) in
  if get_applicable p then
    keys p = ["applicable"; "applies_to"; "discount_amount"] /\
    get_reason p = None /\
    (0 < get_discount p)%Q /\
    (get_discount p <= _compute_raw_discount c (selected_base c cart))%Q /\
    (forall lim, total_budget_limit c = Some lim -> budget_capped c = true ->
       (get_discount p <= lim - total_discount_given s (campaign_id c))%Q)
  else
    keys p = ["applicable"; "reason"; "discount_amount"; "applies_to"] /\
    get_discount p = 0%Q /\
    exists reason,
      get_reason p = Some reason /\
      In reason [ "Inactive or outside schedule."; "Customer not targeted.";
                  "Daily usage limit reached."; "Nothing to discount.";
                  "Budget exhausted."; "Not applicable." ].
Proof.
  simpl. rewrite preview_result_eq. unfold preview_as_specified.
  destruct (first_failing (ordered_checks c cart today s)) as [reason|] eqn:E.
  - pose proof (first_failing_reason c cart today s reason E) as Hin.
    assert (Hne : truthy_str (Some reason) = true).
    { simpl in Hin.
      destruct Hin as [<-|[<-|[<-|[<-|[<-|[<-|[]]]]]]]; reflexivity. }
    assert (Hr : get_reason (preview_rejected c (Some reason)) = Some reason).
    { unfold get_reason, preview_rejected, reason_or. rewrite Hne. reflexivity. }
    change (get_applicable (preview_rejected c (Some reason))) with false.
    cbv iota. repeat split; eauto.
  - change (get_applicable (preview_applicable c (final_discount c cart s)))
      with true.
    cbv iota.
    change (get_discount (preview_applicable c (final_discount c cart s)))
      with (final_discount c cart s).
    apply first_failing_none_checks in E as (_ & _ & _ & _ & _ & Hd).
    apply Qlt_bool_iff in Hd.
    repeat split; try assumption.
    + unfold final_discount. destruct (budget_left c s); [|lra].
      apply Q.le_min_l.
    + intros lim Hlim Hcap.
      pose proof (final_discount_fits c cart s lim Hlim Hcap). lra.
Qed.

Lemma preview_result_shape_witness :
  (get_discount (fst (preview_discount budget40 cart500 100 empty_ledger))
   <= 40 - total_discount_given empty_ledger (campaign_id budget40))%Q.
Proof.
  pose proof (preview_result_shape budget40 cart500 100 empty_ledger) as H.
  cbv zeta in H.
  assert (E : get_applicable
                (fst (preview_discount budget40 cart500 100 empty_ledger))
              = true) by (vm_compute; reflexivity).
  rewrite E in H.
  destruct H as (_ & _ & _ & _ & Hb).
  apply (Hb 40%Q); reflexivity.
Defined.

(** * Further properties of redeem and of call sequences *)

Lemma ledger_after_preview_frame
    (c : Campaign) (cart : Cart) (today : date) (s : Ledger) :
  (forall k, k <> usage_key c (customer cart) today ->
     usages (ledger_after_preview c cart today s) !! k = usages s !! k) /\
  (forall cid, cid <> campaign_id c ->
     budgets (ledger_after_preview c cart today s) !! cid = budgets s !! cid).
Proof.
  unfold ledger_after_preview, get_or_create_usage, get_or_create_budget.
  set (key := usage_key c (customer cart) today).
  split; intros k Hk;
    destruct (_ && _); try reflexivity;
    destruct (usages s !! key); simpl;
    destruct (_ && _); simpl; try reflexivity;
    try (destruct (budgets s !! campaign_id c); simpl);
    rewrite ?lookup_insert_ne by congruence; reflexivity.
Qed.

Lemma ledger_after_commit_frame
    (c : Campaign) (cart : Cart) (today : date) (disc : Decimal) (s : Ledger) :
  (forall k, k <> usage_key c (customer cart) today ->
     usages (ledger_after_commit c cart today disc s) !! k = usages s !! k) /\
  (forall cid, cid <> campaign_id c ->
     budgets (ledger_after_commit c cart today disc s) !! cid
       = budgets s !! cid).
Proof.
  unfold ledger_after_commit. simpl. split; intros k Hk.
  - now rewrite lookup_insert_ne by congruence.
  - destruct (budget_capped c); [|reflexivity].
    now rewrite lookup_insert_ne by congruence.
Qed.

Lemma run_call_frame (op : Call) (s : Ledger) :
  (forall k, k <> call_key op ->
     usages (run_call s op) !! k = usages s !! k) /\
  (forall cid, cid <> campaign_id (call_campaign op) ->
     budgets (run_call s op) !! cid = budgets s !! cid).
Proof.
  destruct op as [c cart today | c cart today]; simpl.
  - rewrite preview_discount_eq. simpl. apply ledger_after_preview_frame.
  - rewrite redeem_discount_eq. simpl.
    destruct (ledger_after_preview_frame c cart today s) as [Hu Hb].
    destruct (get_applicable _); simpl; [|split; assumption].
    destruct (ledger_after_commit_frame c cart today
                (final_discount c cart s)
                (ledger_after_preview c cart today s)) as [Hu' Hb'].
    split; intros k Hk.
    + rewrite Hu' by assumption. now apply Hu.
    + rewrite Hb' by assumption. now apply Hb.
Qed.

(** X8: a call reads and writes the rows of its own campaign only: every
    usage row of another (campaign, customer, date) and every budget row of
    another campaign is after the call what it was before, created or not. *)
Theorem call_touches_own_rows (op : Call) (s : Ledger) :
  (forall k, k <> call_key op ->
     usages (run_call s op) !! k = usages s !! k) /\
  (forall cid, cid <> campaign_id (call_campaign op) ->
     budgets (run_call s op) !! cid = budgets s !! cid).
Proof. apply run_call_frame. Qed.

Lemma call_touches_own_rows_witness :
  usages (run_call empty_ledger (RedeemCall test10 cart500 100)) !! (1, 8, 100)
    = usages empty_ledger !! (1, 8, 100) /\
  budgets (run_call empty_ledger (RedeemCall test10 cart500 100)) !! 5
    = budgets empty_ledger !! 5.
Proof.
  split.
  - apply (proj1 (call_touches_own_rows (RedeemCall test10 cart500 100)
                    empty_ledger)).
    discriminate.
  - apply (proj2 (call_touches_own_rows (RedeemCall test10 cart500 100)
                    empty_ledger)).
    discriminate.
Defined.

Lemma redeem_result_eq (c : Campaign) (cart : Cart) (today : date) (s : Ledger) :
  fst (redeem_discount c cart today s) =
    Some (if get_applicable (preview_as_specified c cart today s)
          then redeem_committed c (final_discount c cart s)
          else preview_as_specified c cart today s).
Proof.
  rewrite redeem_discount_eq. simpl. destruct (get_applicable _); reflexivity.
Qed.

(** X9: campaigns are independent: a preview or redeem of one campaign
    returns the same result whether or not a call on a campaign with another
    id came before it. *)
Theorem other_campaign_calls_do_not_interfere
    (c : Campaign) (cart : Cart) (today : date) (op : Call) (s : Ledger) :
  campaign_id (call_campaign op) <> campaign_id c ->
  fst (preview_discount c cart today (run_call s op))
    = fst (preview_discount c cart today s) /\
  fst (redeem_discount c cart today (run_call s op))
    = fst (redeem_discount c cart today s).
Proof.
  intros Hid.
  destruct (run_call_frame op s) as [Hu Hb].
  assert (Ht : txn_count (run_call s op) (usage_key c (customer cart) today)
               = txn_count s (usage_key c (customer cart) today)).
  { unfold txn_count. rewrite Hu; [reflexivity|].
    intros E. apply Hid. destruct op; simpl in *; unfold usage_key in E;
      congruence. }
  assert (Hg : total_discount_given (run_call s op) (campaign_id c)
               = total_discount_given s (campaign_id c)).
  { unfold total_discount_given. rewrite Hb; [reflexivity | congruence]. }
  destruct (preview_as_specified_reads c cart today s (run_call s op) Ht Hg)
    as (Hp & Hf & _).
  split.
  - now rewrite !preview_result_eq.
  - now rewrite !redeem_result_eq, Hp, Hf.
Qed.

Lemma other_campaign_calls_do_not_interfere_witness :
  fst (preview_discount test10 cart500 100
         (run_call empty_ledger (RedeemCall budget40 cart500 100)))
    = fst (preview_discount test10 cart500 100 empty_ledger) /\
  fst (redeem_discount test10 cart500 100
         (run_call empty_ledger (RedeemCall budget40 cart500 100)))
    = fst (redeem_discount test10 cart500 100 empty_ledger).
Proof.
  apply (other_campaign_calls_do_not_interfere test10 cart500 100
           (RedeemCall budget40 cart500 100) empty_ledger).
  discriminate.
Defined.

(** X10: redeem never raises: the lookup of [prev["discount_amount"]]
    always finds a decimal, also when other transactions commit between the
    preview and the lock.  On its own the call returns the rejected preview
    or commits exactly the discount that a preview on the same ledger
    shows. *)
Theorem redeem_always_returns
    (other : Ledger -> Ledger)
    (c : Campaign) (cart : Cart) (today : date) (s : Ledger) :
  (exists r, fst (redeem_discount_racing other c cart today s) = Some r) /\
  (exists r,
     fst (redeem_discount c cart today s) = Some r /\
     let p := fst (preview_discount c cart today s) in
     get_applicable r = get_applicable p /\
     get_discount r = get_discount p /\
     dict_get "applies_to" r = dict_get "applies_to" p /\
     (get_applicable p = false -> r = p)).
Proof.
  split.
  - rewrite redeem_discount_racing_eq. simpl.
    destruct (get_applicable _); [|eexists; reflexivity].
    destruct (redeem_locked _ _ _ _ _). eexists; reflexivity.
  - rewrite redeem_result_eq, preview_result_eq. eexists. split; [reflexivity|].
    simpl.
    destruct (get_applicable (preview_as_specified c cart today s)) eqn:E.
    + destruct (preview_applicable_inv c cart today s E) as [-> _].
      repeat split. discriminate.
    + rewrite E. auto.
Qed.

Lemma redeem_always_returns_witness :
  exists r,
    fst (redeem_discount test10 cart500 200 empty_ledger) = Some r /\
    let p := fst (preview_discount test10 cart500 200 empty_ledger) in
    get_applicable r = get_applicable p /\
    get_discount r = get_discount p /\
    dict_get "applies_to" r = dict_get "applies_to" p /\
    (get_applicable p = false -> r = p).
Proof.
  apply (proj2 (redeem_always_returns (fun s => s)
                  test10 cart500 200 empty_ledger)).
Defined.

(** X11: a redeem on a campaign that fails the schedule check or does not
    target the customer is rejected and leaves the ledger exactly as it was:
    no row is created. *)
Theorem redeem_unscheduled_or_untargeted
    (c : Campaign) (cart : Cart) (today : date) (s : Ledger) :
  check_schedule c today && _eligible_customer c (customer cart) = false ->
  exists r,
    redeem_discount c cart today s = (Some r, s) /\
    get_applicable r = false /\
    get_reason r = Some (if check_schedule c today
                         then "Customer not targeted."
                         else "Inactive or outside schedule.").
Proof.
  intros H. rewrite redeem_discount_eq. simpl.
  unfold ledger_after_preview, preview_as_specified, ordered_checks,
    first_failing. rewrite H.
  destruct (check_schedule c today); simpl in *.
  - rewrite H. simpl. eexists. repeat split.
  - eexists. repeat split.
Qed.

Lemma redeem_unscheduled_or_untargeted_witness :
  exists r,
    redeem_discount test10_targeted other_cart500 100 empty_ledger
      = (Some r, empty_ledger) /\
    get_applicable r = false /\
    get_reason r = Some (if check_schedule test10_targeted 100
                         then "Customer not targeted."
                         else "Inactive or outside schedule.").
Proof.
  apply (redeem_unscheduled_or_untargeted
           test10_targeted other_cart500 100 empty_ledger).
  reflexivity.
Defined.

(** * Accounting over call sequences *)

Lemma committed_redeem (c : Campaign) (cart : Cart) (today : date) (s : Ledger) :
  committed (RedeemCall c cart today) s
    = get_applicable (preview_as_specified c cart today s).
Proof.
  unfold committed. rewrite redeem_result_eq.
  destruct (get_applicable (preview_as_specified c cart today s)) eqn:E;
    [reflexivity | exact E].
Qed.

Lemma granted_redeem (c : Campaign) (cart : Cart) (today : date) (s : Ledger) :
  granted (RedeemCall c cart today) s
    = if get_applicable (preview_as_specified c cart today s)
      then final_discount c cart s else 0%Q.
Proof.
  unfold granted. rewrite redeem_result_eq.
  destruct (get_applicable (preview_as_specified c cart today s)) eqn:E;
    [reflexivity | now rewrite E].
Qed.

Lemma run_call_txn_count (op : Call) (s : Ledger) (k : Z * Z * Z) :
  txn_count (run_call s op) k =
    txn_count s k
    + (if committed op s && bool_decide (call_key op = k) then 1 else 0).
Proof.
  destruct op as [c cart today | c cart today].
  - simpl. destruct (preview_keeps_counters c cart today s) as (_ & _ & Ht & _).
    rewrite Ht. lia.
  - rewrite committed_redeem. simpl. rewrite redeem_txn_count.
    destruct (get_applicable _); simpl; [|lia].
    repeat case_bool_decide; try lia; congruence.
Qed.

Lemma run_calls_txn_count (k : Z * Z * Z) (ops : list Call) (s : Ledger) :
  txn_count (run_calls ops s) k = txn_count s k + committed_count k ops s.
Proof.
  revert s. induction ops as [|op ops IH]; intros s; simpl; [lia|].
  unfold run_calls in IH. rewrite IH, run_call_txn_count. lia.
Qed.

(** X12: the usage counter counts redemptions: after any sequence of calls
    the counter of a (campaign, customer, date) is what it was plus the
    number of redeem calls of the sequence on that row that returned
    applicable; previews and rejected redeems add nothing. *)
Theorem usage_counter_counts_redemptions
    (k : Z * Z * Z) (ops : list Call) (s : Ledger) :
  txn_count (run_calls ops s) k = txn_count s k + committed_count k ops s.
Proof. apply run_calls_txn_count. Qed.

Lemma final_discount_positive
    (c : Campaign) (cart : Cart) (today : date) (s : Ledger) :
  get_applicable (preview_as_specified c cart today s) = true ->
  (0 < final_discount c cart s)%Q.
Proof.
  intros E. destruct (preview_applicable_inv c cart today s E) as [_ Hnone].
  apply first_failing_none_checks in Hnone as (_ & _ & _ & _ & _ & Hd).
  now apply Qlt_bool_iff.
Qed.

Lemma run_call_total (op : Call) (s : Ledger) (cid : Z) :
  total_discount_given (run_call s op) cid =
    if committed op s && budget_capped (call_campaign op)
       && bool_decide (cid = campaign_id (call_campaign op))
    then (total_discount_given s cid + granted op s)%Q
    else total_discount_given s cid.
Proof.
  destruct op as [c cart today | c cart today].
  - simpl. now destruct (preview_keeps_counters c cart today s) as (_ & _ & _ & Hg).
  - rewrite committed_redeem, granted_redeem. simpl.
    rewrite redeem_total_discount_given.
    destruct (get_applicable _); reflexivity.
Qed.

(** X13: the budget counter is the sum of what was granted: for a campaign
    with a budget cap in force (and not edited meanwhile), after any sequence
    of calls [total_discount_given] is what it was plus the discount amounts
    returned by the committed redeems of that campaign; for a campaign
    without such a cap it does not move. *)
Theorem budget_counter_sums_grants
    (c : Campaign) (ops : list Call) (s : Ledger) :
  same_definition c ops ->
  if budget_capped c then
    (total_discount_given (run_calls ops s) (campaign_id c)
     == total_discount_given s (campaign_id c)
        + granted_total (campaign_id c) ops s)%Q
  else
    total_discount_given (run_calls ops s) (campaign_id c)
      = total_discount_given s (campaign_id c).
Proof.
  intros Hdef. revert s.
  induction ops as [|op ops IH]; intros s.
  - simpl. destruct (budget_capped c); [ring | reflexivity].
  - apply same_definition_cons in Hdef as [Hop Hrest].
    specialize (IH Hrest (run_call s op)).
    change (run_calls (op :: ops) s) with (run_calls ops (run_call s op)).
    cbn [granted_total].
    pose proof (run_call_total op s (campaign_id c)) as Hstep.
    destruct (budget_capped c) eqn:Hcap.
    + rewrite IH, Hstep.
      destruct (decide (campaign_id (call_campaign op) = campaign_id c))
        as [Hid|Hid].
      * rewrite (bool_decide_eq_true_2 _ Hid).
        rewrite (bool_decide_eq_true_2 _ (eq_sym Hid)).
        rewrite (Hop Hid), Hcap, andb_true_r, andb_true_r.
        destruct (committed op s) eqn:Ec; [ring|].
        assert (Eg : granted op s = 0%Q).
        { destruct op as [c' cart today | c' cart today]; [reflexivity|].
          rewrite committed_redeem in Ec. rewrite granted_redeem.
          now rewrite Ec. }
        rewrite Eg. ring.
      * rewrite (bool_decide_eq_false_2 _ Hid).
        rewrite bool_decide_eq_false_2 by congruence.
        rewrite andb_false_r. ring.
    + rewrite IH, Hstep.
      case_bool_decide as Hid; [|now rewrite andb_false_r].
      rewrite (Hop (eq_sym Hid)), Hcap, andb_false_r. reflexivity.
Qed.

Lemma budget_counter_sums_grants_witness :
  (total_discount_given
     (run_calls [RedeemCall budget40 cart500 100;
                 RedeemCall budget40 other_cart500 100] empty_ledger)
     (campaign_id budget40)
   == total_discount_given empty_ledger (campaign_id budget40)
      + granted_total (campaign_id budget40)
          [RedeemCall budget40 cart500 100;
           RedeemCall budget40 other_cart500 100] empty_ledger)%Q.
Proof.
  apply (budget_counter_sums_grants budget40
           [RedeemCall budget40 cart500 100;
            RedeemCall budget40 other_cart500 100] empty_ledger).
  repeat constructor.
Defined.

Lemma committed_count_nonneg (k : Z * Z * Z) (ops : list Call) (s : Ledger) :
  0 <= committed_count k ops s.
Proof.
  revert s. induction ops as [|op ops IH]; intros s; simpl; [lia|].
  specialize (IH (run_call s op)). destruct (_ && _); lia.
Qed.

Lemma run_call_total_le (op : Call) (s : Ledger) (cid : Z) :
  (total_discount_given s cid <= total_discount_given (run_call s op) cid)%Q.
Proof.
  rewrite run_call_total.
  destruct (committed op s) eqn:Ec; simpl; [|lra].
  destruct (_ && _); [|lra].
  destruct op as [c cart today | c cart today]; [discriminate|].
  rewrite committed_redeem in Ec. rewrite granted_redeem, Ec.
  pose proof (final_discount_positive c cart today s Ec). lra.
Qed.

Lemma run_calls_total_le (ops : list Call) (s : Ledger) (cid : Z) :
  (total_discount_given s cid <= total_discount_given (run_calls ops s) cid)%Q.
Proof.
  revert s. induction ops as [|op ops IH]; intros s; [apply Qle_refl|].
  change (run_calls (op :: ops) s) with (run_calls ops (run_call s op)).
  specialize (IH (run_call s op)).
  pose proof (run_call_total_le op s cid). lra.
Qed.

Lemma run_calls_txn_count_le (ops : list Call) (s : Ledger) (k : Z * Z * Z) :
  txn_count s k <= txn_count (run_calls ops s) k.
Proof.
  rewrite run_calls_txn_count.
  pose proof (committed_count_nonneg k ops s). lia.
Qed.

(** X14: no call ever lowers a counter: through any sequence of previews
    and redeems every usage counter and every budget counter is
    non-decreasing. *)
Theorem counters_never_decrease (ops : list Call) (s : Ledger) :
  (forall k, txn_count s k <= txn_count (run_calls ops s) k) /\
  (forall cid,
     (total_discount_given s cid
      <= total_discount_given (run_calls ops s) cid)%Q).
Proof.
  split; [apply run_calls_txn_count_le | apply run_calls_total_le].
Qed.

(** X15: exhaustion is permanent.  Once the usage counter of a customer and
    day has reached the daily maximum, or the budget counter of a capped
    campaign has reached its limit, every later preview and redeem of that
    campaign for that customer and day (respectively of that campaign) is
    rejected, whatever calls happen in between. *)
Theorem exhaustion_is_permanent
    (c : Campaign) (cart : Cart) (today : date) (ops : list Call) (s : Ledger) :
  max_txn_per_customer_per_day c
    <= txn_count s (usage_key c (customer cart) today) \/
  (exists lim, total_budget_limit c = Some lim /\ budget_capped c = true /\
               (lim <= total_discount_given s (campaign_id c))%Q) ->
  get_applicable (fst (preview_discount c cart today (run_calls ops s))) = false /\
  exists r, fst (redeem_discount c cart today (run_calls ops s)) = Some r /\
            get_applicable r = false.
Proof.
  intros H.
  pose proof (run_calls_txn_count_le ops s) as Ht.
  pose proof (run_calls_total_le ops s) as Hg.
  set (s' := run_calls ops s) in *.
  assert (Hrej : get_applicable (preview_as_specified c cart today s') = false).
  { destruct (get_applicable _) eqn:E; [exfalso | reflexivity].
    destruct (preview_applicable_inv c cart today s' E) as [_ Hnone].
    apply first_failing_none_checks in Hnone as (_ & _ & Hd & _ & Hb & _).
    destruct H as [Hfull | (lim & Hlim & Hcap & Hspent)].
    - apply check_daily_below_max in Hd.
      specialize (Ht (usage_key c (customer cart) today)). lia.
    - unfold check_budget, budget_left in Hb. rewrite Hlim, Hcap in Hb.
      apply Qlt_bool_iff in Hb. specialize (Hg (campaign_id c)). lra. }
  split.
  - now rewrite preview_result_eq.
  - rewrite redeem_result_eq, Hrej. eauto.
Qed.

Lemma exhaustion_is_permanent_witness :
  get_applicable
    (fst (preview_discount test10 cart500 100
            (run_calls [RedeemCall flat30 cart_small_delivery 100]
               (run_call empty_ledger (RedeemCall test10 cart500 100)))))
    = false /\
  exists r,
    fst (redeem_discount test10 cart500 100
           (run_calls [RedeemCall flat30 cart_small_delivery 100]
              (run_call empty_ledger (RedeemCall test10 cart500 100))))
      = Some r /\
    get_applicable r = false.
Proof.
  apply (exhaustion_is_permanent test10 cart500 100
           [RedeemCall flat30 cart_small_delivery 100]
           (run_call empty_ledger (RedeemCall test10 cart500 100))).
  left. vm_compute. discriminate.
Defined.

(** * Two-place amounts *)

Lemma compute_raw_discount_two_places (c : Campaign) (amount : Decimal) :
  two_places (_compute_raw_discount c amount).
Proof.
  unfold _compute_raw_discount.
  apply two_places_Qmax; [apply two_places_zero | apply quantize_down_two_places].
Qed.

Lemma total_two_places (s : Ledger) (cid : Z) :
  ledger_two_places s -> two_places (total_discount_given s cid).
Proof.
  intros H. unfold total_discount_given.
  destruct (budgets s !! cid) as [g|] eqn:E; simpl;
    [exact (H cid g E) | apply two_places_zero].
Qed.

Lemma final_discount_two_places (c : Campaign) (cart : Cart) (s : Ledger) :
  ledger_two_places s ->
  (forall lim, total_budget_limit c = Some lim -> two_places lim) ->
  two_places (final_discount c cart s).
Proof.
  intros Hs Hlim. unfold final_discount, budget_left.
  destruct (total_budget_limit c) as [lim|];
    [|apply compute_raw_discount_two_places].
  destruct (budget_capped c); [|apply compute_raw_discount_two_places].
  apply two_places_Qmin; [apply compute_raw_discount_two_places|].
  apply two_places_minus; [now apply Hlim | now apply total_two_places].
Qed.

Lemma adds_zero_rows_two_places (s s' : Ledger) :
  adds_zero_rows s s' -> ledger_two_places s -> ledger_two_places s'.
Proof.
  intros [_ Hb] Hs cid g E.
  destruct (Hb cid) as [F | [_ F]].
  - rewrite F in E. exact (Hs cid g E).
  - rewrite F in E. injection E as <-. apply two_places_zero.
Qed.

(** X16: amounts keep two decimal places.  On a ledger whose budget rows
    hold two-place amounts, for a campaign whose budget limit (if any) is a
    two-place amount, the discount that preview and redeem return is a
    two-place amount, and both leave a ledger whose budget rows hold
    two-place amounts. *)
Theorem amounts_keep_two_places
    (c : Campaign) (cart : Cart) (today : date) (s : Ledger) :
  ledger_two_places s ->
  (forall lim, total_budget_limit c = Some lim -> two_places lim) ->
  two_places (get_discount (fst (preview_discount c cart today s))) /\
  ledger_two_places (snd (preview_discount c cart today s)) /\
  (exists r, fst (redeem_discount c cart today s) = Some r /\
             two_places (get_discount r)) /\
  ledger_two_places (snd (redeem_discount c cart today s)).
Proof.
  intros Hs Hlim.
  pose proof (final_discount_two_places c cart s Hs Hlim) as Hfinal.
  assert (Hprev : two_places (get_discount (preview_as_specified c cart today s))).
  { unfold preview_as_specified.
    destruct (first_failing _); [apply two_places_zero | exact Hfinal]. }
  assert (Hs1 : ledger_two_places (ledger_after_preview c cart today s)).
  { pose proof (preview_adds_zero_rows c cart today s) as Hadd.
    rewrite preview_discount_eq in Hadd.
    exact (adds_zero_rows_two_places _ _ Hadd Hs). }
  rewrite preview_discount_eq, redeem_discount_eq. simpl.
  split; [exact Hprev | split; [exact Hs1|]].
  destruct (get_applicable (preview_as_specified c cart today s)); simpl.
  - split; [eexists; split; [reflexivity | exact Hfinal]|].
    intros cid g. unfold ledger_after_commit. simpl.
    destruct (budget_capped c); [|apply Hs1].
    destruct (decide (campaign_id c = cid)) as [<-|Hne].
    + rewrite lookup_insert_eq. intros [= <-].
      apply two_places_plus; [now apply total_two_places | exact Hfinal].
    + rewrite lookup_insert_ne by assumption. apply Hs1.
  - split; [eexists; split; [reflexivity | exact Hprev] | exact Hs1].
Qed.

Lemma amounts_keep_two_places_witness :
  two_places
    (get_discount (fst (preview_discount budget40 cart500 100 empty_ledger))).
Proof.
  apply (amounts_keep_two_places budget40 cart500 100 empty_ledger).
  - intros cid g E. unfold empty_ledger in E. simpl in E.
    rewrite lookup_empty in E. discriminate.
  - intros lim [= <-]. exists 4000. reflexivity.
Defined.

(** * A budget limit of zero *)

Lemma first_failing_not_budget
    (c : Campaign) (cart : Cart) (today : date) (s : Ledger) (reason : string) :
  check_budget c s = true ->
  first_failing (ordered_checks c cart today s) = Some reason ->
  reason <> "Budget exhausted.".
Proof.
  intros Hb. unfold ordered_checks, first_failing. rewrite Hb.
  destruct (check_schedule _ _); [|intros [= <-]; discriminate].
  destruct (_eligible_customer _ _); [|intros [= <-]; discriminate].
  destruct (check_daily _ _ _ _); [|intros [= <-]; discriminate].
  destruct (check_base _ _); [|intros [= <-]; discriminate].
  destruct (check_discount _ _ _); [discriminate | intros [= <-]; discriminate].
Qed.

(** X17: a [total_budget_limit] of 0.00 is no limit for the services: the
    campaign is never rejected as budget-exhausted, its discount is the raw
    discount, and redeem leaves the budget rows as they were; yet
    [Campaign.remaining_budget] reports the limit minus what was given, as
    for a capped campaign. *)
Theorem zero_budget_limit_is_unlimited
    (c : Campaign) (cart : Cart) (today : date) (s : Ledger) (lim : Decimal) :
  total_budget_limit c = Some lim ->
  (lim == 0)%Q ->
  get_reason (fst (preview_discount c cart today s))
    <> Some "Budget exhausted." /\
  (get_applicable (fst (preview_discount c cart today s)) = true ->
   get_discount (fst (preview_discount c cart today s))
     = _compute_raw_discount c (selected_base c cart)) /\
  budgets (snd (redeem_discount c cart today s)) = budgets s /\
  exists r, remaining_budget c (budgets s !! campaign_id c) = Some r /\
            (r == lim - total_discount_given s (campaign_id c))%Q.
Proof.
  intros Hlim H0.
  assert (Hcap : budget_capped c = false).
  { unfold budget_capped, truthy_dec. rewrite Hlim.
    now rewrite (Qeq_eq_bool _ _ H0). }
  assert (Hleft : budget_left c s = None).
  { unfold budget_left. now rewrite Hlim, Hcap. }
  assert (Hfinal : final_discount c cart s
                   = _compute_raw_discount c (selected_base c cart)).
  { unfold final_discount. now rewrite Hleft. }
  assert (Hbudget : check_budget c s = true).
  { unfold check_budget. now rewrite Hleft. }
  rewrite preview_result_eq.
  split; [|split; [|split]].
  - unfold preview_as_specified.
    destruct (first_failing _) as [reason|] eqn:E; [|discriminate].
    pose proof (first_failing_not_budget c cart today s reason Hbudget E) as Hne.
    pose proof (first_failing_reason c cart today s reason E) as Hin.
    simpl in Hin.
    destruct Hin as [<-|[<-|[<-|[<-|[<-|[<-|[]]]]]]];
      try discriminate; contradiction.
  - intros E. destruct (preview_applicable_inv c cart today s E) as [-> _].
    exact Hfinal.
  - rewrite redeem_discount_eq. simpl.
    assert (Hs1 : budgets (ledger_after_preview c cart today s) = budgets s).
    { unfold ledger_after_preview. rewrite Hcap, andb_false_r.
      destruct (_ && _); [apply get_or_create_usage_budgets | reflexivity]. }
    destruct (get_applicable _); simpl; [|exact Hs1].
    now rewrite Hcap.
  - unfold remaining_budget, total_discount_given. rewrite Hlim.
    destruct (budgets s !! campaign_id c); simpl; eexists;
      (split; [reflexivity|]); [reflexivity | ring].
Qed.

Lemma zero_budget_limit_is_unlimited_witness :
  budgets (snd (redeem_discount zero_budget cart500 100 empty_ledger))
    = budgets empty_ledger.
Proof.
  apply (zero_budget_limit_is_unlimited zero_budget cart500 100 empty_ledger
           0%Q); reflexivity.
Defined.

(** * The serializer's validation *)

Lemma Qlt_bool_false (x y : Q) : Qlt_bool x y = false -> (y <= x)%Q.
Proof.
  unfold Qlt_bool. rewrite negb_false_iff. apply Qle_bool_imp_le.
Qed.

Lemma zero_discount_value_valid (t : DiscountType) (v : Decimal) :
  (v == 0)%Q -> campaign_discount_value_valid t v.
Proof.
  intros E. destruct t; simpl; rewrite E; [split|]; lra.
Qed.

(** What [validate] has checked when it accepts, on the values it
    compared. *)
Lemma validate_accepts (instance : option Campaign) (attrs a : Attrs) :
  validate instance attrs = inr a ->
  a = attrs /\
  (forall st en,
     attr_or_stored (a_start_date attrs) instance start_date = Some st ->
     attr_or_stored (a_end_date attrs) instance end_date = Some en ->
     campaign_end_after_start st en) /\
  (forall t v,
     attr_or_stored (a_discount_type attrs) instance discount_type = Some t ->
     discount_value_or_stored (a_discount_value attrs) instance = Some v ->
     campaign_discount_value_valid t v).
Proof.
  unfold validate.
  set (start := attr_or_stored (a_start_date attrs) instance start_date).
  set (end_ := attr_or_stored (a_end_date attrs) instance end_date).
  set (dtype := attr_or_stored (a_discount_type attrs) instance discount_type).
  set (dvalue := discount_value_or_stored (a_discount_value attrs) instance).
  lazymatch goal with
  | |- (if ?b then _ else _) = _ -> _ => destruct b eqn:Ed; [discriminate|]
  end.
  lazymatch goal with
  | |- (if ?b then _ else _) = _ -> _ => destruct b eqn:Ep; [discriminate|]
  end.
  lazymatch goal with
  | |- (if ?b then _ else _) = _ -> _ => destruct b eqn:Ef; [discriminate|]
  end.
  lazymatch goal with
  | |- (if ?b then _ else _) = _ -> _ => destruct b eqn:Et; [discriminate|]
  end.
  intros [= <-]. split; [reflexivity | split].
  - intros st en Hst Hen. rewrite Hst, Hen in Ed.
    apply Z.ltb_ge in Ed. exact Ed.
  - intros t v Ht Hv. rewrite Ht, Hv in Ep, Ef.
    destruct t; simpl.
    + apply orb_false_iff in Ep as [Ha Hb].
      split; now apply Qlt_bool_false.
    + now apply Qlt_bool_false.
Qed.

(** X18: on a create, [validate] checks the discount value against the
    discount type that is submitted with it.  An accepted payload is
    returned unchanged, has [end_date >= start_date], and its discount
    value is valid for the type it submits.  When it submits no type (the
    model default PERCENT then applies) the value is not checked at all:
    the same payload is accepted with any other discount value. *)
Theorem validate_create_meets_constraints
    (attrs a : Attrs) (st en : date) (v : Decimal) :
  a_start_date attrs = Some st ->
  a_end_date attrs = Some en ->
  a_discount_value attrs = Some v ->
  validate None attrs = inr a ->
  a = attrs /\
  campaign_end_after_start st en /\
  match a_discount_type attrs with
  | Some t => campaign_discount_value_valid t v
  | None =>
      forall v', validate None (with_discount_value attrs v')
                 = inr (with_discount_value attrs v')
  end.
Proof.
  intros Est Een Ev Hok.
  destruct (validate_accepts None attrs a Hok) as (Ha & Hdates & Hvalue).
  split; [exact Ha | split].
  - apply Hdates; unfold attr_or_stored; [now rewrite Est | now rewrite Een].
  - destruct (a_discount_type attrs) as [t|] eqn:Et.
    + destruct (truthy_dec v) eqn:Etr.
      * apply Hvalue; [reflexivity|].
        unfold discount_value_or_stored. now rewrite Ev, Etr.
      * apply zero_discount_value_valid. now apply truthy_dec_false.
    + intros v'. revert Hok. unfold validate, with_discount_value. simpl.
      unfold attr_or_stored. rewrite Est, Een, Et. simpl.
      destruct (en <? st); [discriminate|].
      destruct (a_allow_all_customers attrs) as [[|]|];
        try destruct (a_specific_customers attrs) as [specific|];
        try destruct (Z.of_nat (length specific) =? 0);
        try discriminate; reflexivity.
Qed.

Lemma validate_create_meets_constraints_witness :
  (create_percent20 = create_percent20 /\
   campaign_end_after_start 99 105 /\
   campaign_discount_value_valid PERCENT 20) /\
  (create_untyped = create_untyped /\
   campaign_end_after_start 99 105 /\
   forall v', validate None (with_discount_value create_untyped v')
              = inr (with_discount_value create_untyped v')).
Proof.
  split.
  - apply (validate_create_meets_constraints create_percent20 create_percent20
             99 105 20%Q); reflexivity.
  - apply (validate_create_meets_constraints create_untyped create_untyped
             99 105 20%Q); reflexivity.
Defined.

(** A create payload without a type and with a value of 500 is accepted,
    though 500 is no valid value for the default type. *)
Example untyped_create_accepted :
  validate None (with_discount_value create_untyped 500)
    = inr (with_discount_value create_untyped 500) /\
  ~ campaign_discount_value_valid PERCENT 500.
Proof.
  split; [reflexivity|]. intros [_ H]. vm_compute in H. apply H. reflexivity.
Qed.

(** X19: an update (also a partial one) that [validate] accepts leaves a
    row that satisfies both check constraints: with every submitted field
    taking the place of the stored one, [end_date >= start_date] and the
    discount value is valid for the discount type. *)
Theorem validate_update_meets_constraints
    (stored : Campaign) (attrs a : Attrs) :
  validate (Some stored) attrs = inr a ->
  campaign_end_after_start
    (default (start_date stored) (a_start_date attrs))
    (default (end_date stored) (a_end_date attrs)) /\
  campaign_discount_value_valid
    (default (discount_type stored) (a_discount_type attrs))
    (default (discount_value stored) (a_discount_value attrs)).
Proof.
  intros Hok.
  destruct (validate_accepts (Some stored) attrs a Hok) as (_ & Hdates & Hvalue).
  split.
  - apply Hdates; unfold attr_or_stored;
      [destruct (a_start_date attrs) | destruct (a_end_date attrs)]; reflexivity.
  - assert (Ht : attr_or_stored (a_discount_type attrs) (Some stored)
                   discount_type
                 = Some (default (discount_type stored) (a_discount_type attrs)))
      by (unfold attr_or_stored; destruct (a_discount_type attrs); reflexivity).
    destruct (a_discount_value attrs) as [v|] eqn:Ev; simpl.
    + destruct (truthy_dec v) eqn:Etr.
      * apply Hvalue; [exact Ht|].
        unfold discount_value_or_stored. simpl. now rewrite Etr.
      * apply zero_discount_value_valid. now apply truthy_dec_false.
    + apply Hvalue; [exact Ht|]. reflexivity.
Qed.

Lemma validate_update_meets_constraints_witness :
  campaign_end_after_start
    (default (start_date test10) (a_start_date move_start))
    (default (end_date test10) (a_end_date move_start)) /\
  campaign_discount_value_valid
    (default (discount_type test10) (a_discount_type move_start))
    (default (discount_value test10) (a_discount_value move_start)).
Proof.
  apply (validate_update_meets_constraints test10 move_start move_start).
  reflexivity.
Defined.

(** X20: a submitted discount value of zero is not looked at: [validate]
    gives the verdict (and the message) it gives for the same payload
    without the field, so on an update the stored value decides, and a
    payload that would itself be valid can be refused. *)
Theorem validate_ignores_zero_discount_value
    (instance : option Campaign) (attrs : Attrs) (v : Decimal) :
  a_discount_value attrs = Some v ->
  (v == 0)%Q ->
  let without :=
    {| a_start_date := a_start_date attrs;
       a_end_date := a_end_date attrs;
       a_discount_type := a_discount_type attrs;
       a_discount_value := None;
       a_allow_all_customers := a_allow_all_customers attrs;
       a_specific_customers := a_specific_customers attrs |} in
  match validate instance attrs, validate instance without with
  | inl m1, inl m2 => m1 = m2
  | inr a1, inr a2 => a1 = attrs /\ a2 = without
  | _, _ => False
  end.
Proof.
  intros Ev H0 without.
  assert (Etr : truthy_dec v = false).
  { unfold truthy_dec. now rewrite (Qeq_eq_bool _ _ H0). }
  unfold validate, without. simpl.
  unfold discount_value_or_stored at 1 2. rewrite Ev, Etr.
  unfold discount_value_or_stored.
  destruct (match attr_or_stored (a_start_date attrs) instance start_date with
            | Some st =>
                match attr_or_stored (a_end_date attrs) instance end_date with
                | Some en => en <? st
                | None => false
                end
            | None => false
            end); [reflexivity|].
  destruct (match attr_or_stored (a_discount_type attrs) instance discount_type
            with
            | Some PERCENT =>
                match option_map discount_value instance with
                | Some v0 => Qlt_bool v0 0 || Qlt_bool 100 v0
                | None => false
                end
            | _ => false
            end); [reflexivity|].
  destruct (match attr_or_stored (a_discount_type attrs) instance discount_type
            with
            | Some FLAT =>
                match option_map discount_value instance with
                | Some v0 => Qlt_bool v0 0
                | None => false
                end
            | _ => false
            end); [reflexivity|].
  destruct (match a_allow_all_customers attrs with
            | Some false =>
                match a_specific_customers attrs with
                | Some specific => Z.of_nat (length specific) =? 0
                | None => false
                end
            | _ => false
            end); [reflexivity | split; reflexivity].
Qed.

Lemma validate_ignores_zero_discount_value_witness :
  match validate (Some flat150) to_zero_percent,
        validate (Some flat150)
          {| a_start_date := a_start_date to_zero_percent;
             a_end_date := a_end_date to_zero_percent;
             a_discount_type := a_discount_type to_zero_percent;
             a_discount_value := None;
             a_allow_all_customers := a_allow_all_customers to_zero_percent;
             a_specific_customers := a_specific_customers to_zero_percent |}
  with
  | inl m1, inl m2 => m1 = m2
  | inr a1, inr a2 =>
      a1 = to_zero_percent /\
      a2 = {| a_start_date := a_start_date to_zero_percent;
              a_end_date := a_end_date to_zero_percent;
              a_discount_type := a_discount_type to_zero_percent;
              a_discount_value := None;
              a_allow_all_customers := a_allow_all_customers to_zero_percent;
              a_specific_customers := a_specific_customers to_zero_percent |}
  | _, _ => False
  end.
Proof.
  apply (validate_ignores_zero_discount_value (Some flat150) to_zero_percent
           0%Q); reflexivity.
Defined.

(** The update of [flat150] to 0 percent is refused, for the stored 150. *)
Example zero_percent_update_refused :
  validate (Some flat150) to_zero_percent
    = inl "For PERCENT type, discount_value must be between 0 and 100.".
Proof. reflexivity. Qed.

(** * The two endpoints *)

Section Endpoints.

Variable decimal_str : Decimal -> string.
Variable campaign_name : Campaign -> string.

Lemma counters_unchanged_reads (s s' : Ledger)
    (c : Campaign) (cart : Cart) (today : date) :
  counters_unchanged s s' ->
  preview_as_specified c cart today s' = preview_as_specified c cart today s /\
  final_discount c cart s' = final_discount c cart s.
Proof.
  intros (_ & _ & Ht & Hg).
  destruct (preview_as_specified_reads c cart today s s' (Ht _) (Hg _))
    as (Hp & Hf & _).
  auto.
Qed.

Lemma available_loop_eq (cart : Cart) (today : date) (s : Ledger)
    (cs : list Campaign) :
  forall (acc : list AvailableEntry) (s1 : Ledger),
    counters_unchanged s s1 ->
    exists s2,
      counters_unchanged s s2 /\
      available_loop decimal_str campaign_name cs cart today acc s1 =
        (Some (acc ++
               map (fun c =>
                      {| entry_campaign_id := campaign_id c;
                         entry_campaign_name := campaign_name c;
                         entry_applies_to := applies_to c;
                         entry_discount_amount :=
                           decimal_str (final_discount c cart s);
                         entry_discount_type := discount_type c;
                         entry_discount_value :=
                           decimal_str (discount_value c) |})
                 (filter
                    (fun c => get_applicable (preview_as_specified c cart today s))
                    cs))%list,
         s2).
Proof.
  induction cs as [|c cs IH]; intros acc s1 Hs1.
  - exists s1. split; [exact Hs1|]. simpl. now rewrite app_nil_r.
  - cbn [available_loop]. rewrite preview_discount_eq.
    destruct (counters_unchanged_reads s s1 c cart today Hs1) as [Hp Hf].
    rewrite Hp.
    assert (Hs1' : counters_unchanged s (ledger_after_preview c cart today s1)).
    { eapply counters_unchanged_trans; [exact Hs1|].
      apply ledger_after_preview_counters. }
    rewrite filter_cons.
    destruct (get_applicable (preview_as_specified c cart today s)) eqn:E.
    + destruct (preview_applicable_inv c cart today s E) as [-> _].
      cbn [dict_get preview_applicable String.eqb Ascii.eqb Bool.eqb].
      simpl dict_get. rewrite <- Hf.
      destruct (IH (acc ++ [{| entry_campaign_id := campaign_id c;
                               entry_campaign_name := campaign_name c;
                               entry_applies_to := applies_to c;
                               entry_discount_amount :=
                                 decimal_str (final_discount c cart s1);
                               entry_discount_type := discount_type c;
                               entry_discount_value :=
                                 decimal_str (discount_value c) |}])%list
                  (ledger_after_preview c cart today s1) Hs1')
        as (s2 & Hs2 & Heq).
      exists s2. split; [exact Hs2|].
      rewrite Heq. rewrite Hf.
      rewrite decide_True by (now apply Is_true_true).
      cbn [map]. now rewrite <- app_assoc.
    + destruct (IH acc (ledger_after_preview c cart today s1) Hs1')
        as (s2 & Hs2 & Heq).
      exists s2. split; [exact Hs2|].
      rewrite Heq.
      rewrite decide_False; [reflexivity|].
      intros H. apply Is_true_true in H. congruence.
Qed.

Lemma available_entries_eq (cart : Cart) (today : date) (s : Ledger)
    (cs : list Campaign) :
  map (fun c =>
         {| entry_campaign_id := campaign_id c;
            entry_campaign_name := campaign_name c;
            entry_applies_to := applies_to c;
            entry_discount_amount := decimal_str (final_discount c cart s);
            entry_discount_type := discount_type c;
            entry_discount_value := decimal_str (discount_value c) |})
    (filter (fun c => get_applicable (preview_as_specified c cart today s)) cs)
  = map (fun c =>
           {| entry_campaign_id := campaign_id c;
              entry_campaign_name := campaign_name c;
              entry_applies_to := applies_to c;
              entry_discount_amount :=
                decimal_str
                  (get_discount (fst (preview_discount c cart today s)));
              entry_discount_type := discount_type c;
              entry_discount_value := decimal_str (discount_value c) |})
      (filter
         (fun c => get_applicable (fst (preview_discount c cart today s))) cs).
Proof.
  induction cs as [|c cs IH]; [reflexivity|].
  rewrite !filter_cons, preview_result_eq.
  destruct (get_applicable (preview_as_specified c cart today s)) eqn:E.
  - rewrite !decide_True by (now apply Is_true_true).
    cbn [map]. rewrite IH. f_equal.
    rewrite preview_result_eq.
    destruct (preview_applicable_inv c cart today s E) as [-> _].
    reflexivity.
  - rewrite !decide_False; [exact IH| |];
      intros H; apply Is_true_true in H; congruence.
Qed.

(** X21: the listing of available campaigns never fails, lists (in the
    order of the queryset) exactly the active campaigns whose preview on the
    ledger of the request is applicable, each with the discount that preview
    shows, and changes no counter, however many campaigns it previews. *)
Theorem available_lists_applicable
    (campaigns : list Campaign) (cart : Cart) (today : date) (s : Ledger) :
  fst (available decimal_str campaign_name campaigns cart today s) =
    Some (map (fun c =>
                 {| entry_campaign_id := campaign_id c;
                    entry_campaign_name := campaign_name c;
                    entry_applies_to := applies_to c;
                    entry_discount_amount :=
                      decimal_str
                        (get_discount (fst (preview_discount c cart today s)));
                    entry_discount_type := discount_type c;
                    entry_discount_value := decimal_str (discount_value c) |})
            (filter
               (fun c => get_applicable (fst (preview_discount c cart today s)))
               (filter (fun c => is_active c) campaigns))) /\
  counters_unchanged s
    (snd (available decimal_str campaign_name campaigns cart today s)).
Proof.
  unfold available.
  destruct (available_loop_eq cart today s
              (filter (fun c => is_active c) campaigns) [] s
              (counters_unchanged_refl s)) as (s2 & Hs2 & Heq).
  rewrite Heq. simpl. split; [|exact Hs2].
  f_equal. apply available_entries_eq.
Qed.

End Endpoints.

Section RedeemEndpoint.

Variable decimal_str : Decimal -> string.

Lemma redeem_response_committed (c : Campaign) (d : Decimal) :
  redeem_response decimal_str (redeem_committed c d) =
    (200, [ ("applicable", VBool true);
            ("discount_amount", VStr (decimal_str d));
            ("applies_to", VApplies (applies_to c)) ]).
Proof. reflexivity. Qed.

Lemma redeem_response_rejected (c : Campaign) (reason : option string) :
  redeem_response decimal_str (preview_rejected c reason) =
    (400, [ ("applicable", VBool false);
            ("reason", VStr (reason_or reason "Not applicable."));
            ("discount_amount", VStr (decimal_str 0));
            ("applies_to", VApplies (applies_to c)) ]).
Proof. reflexivity. Qed.

(** X22: the redeem endpoint answers 200 exactly when the redemption was
    committed: then the body carries the previewed discount as a string and
    the usage counter of the customer and day has gone up by one.  Otherwise
    it answers 400 with the reason of the preview and a zero amount, and no
    counter has changed.  The rejection under the lock, which has no amount
    to convert, passes through unchanged with 400. *)
Theorem redeem_view_status
    (c : Campaign) (cart : Cart) (today : date) (s : Ledger) :
  let p := fst (preview_discount c cart today s) in
  let s' := snd (redeem_view decimal_str c cart today s) in
  let k := usage_key c (customer cart) today in
  (exists status body,
     fst (redeem_view decimal_str c cart today s) = Some (status, body) /\
     if get_applicable p then
       status = 200 /\
       get_applicable body = true /\
       dict_get "discount_amount" body
         = Some (VStr (decimal_str (get_discount p))) /\
       txn_count s' k = txn_count s k + 1
     else
       status = 400 /\
       get_applicable body = false /\
       get_reason body = get_reason p /\
       dict_get "discount_amount" body = Some (VStr (decimal_str 0)) /\
       counters_unchanged s s') /\
  redeem_response decimal_str race_rejected = (400, race_rejected).
Proof.
  simpl. split; [|reflexivity].
  unfold redeem_view.
  pose proof (redeem_txn_count c cart today s
                (usage_key c (customer cart) today)) as Hcount.
  rewrite bool_decide_eq_true_2, andb_true_r in Hcount by reflexivity.
  revert Hcount.
  rewrite redeem_discount_eq, preview_result_eq. simpl.
  destruct (get_applicable (preview_as_specified c cart today s)) eqn:E;
    simpl; intros Hcount.
  - destruct (preview_applicable_inv c cart today s E) as [Hp _].
    rewrite Hp. rewrite redeem_response_committed.
    eexists. eexists. split; [reflexivity|].
    repeat split; assumption.
  - unfold preview_as_specified in *.
    destruct (first_failing (ordered_checks c cart today s)) as [reason|];
      [|discriminate].
    rewrite redeem_response_rejected.
    eexists. eexists. split; [reflexivity|].
    split; [reflexivity | split; [reflexivity | split; [reflexivity | split]]];
      try reflexivity.
    apply ledger_after_preview_counters.
Qed.

End RedeemEndpoint.
